(** * Crank voltage features and search-result flattening

    A shallow embedding of [intelematics_write_features.py] and
    [intelematics_write_csv_from_es.py].

    Numbers.  Voltage samples are Python numbers; they are modelled as exact
    rationals [Q].  The one not-a-number value the code can produce (the mean
    or the standard deviation of an empty sequence) is modelled by [None] in
    [option Q].  Python integers (indices, offsets) are [Z], so that negative
    subscripts keep their Python meaning.

    Rounding.  Exact rationals leave the rounding of double-precision
    arithmetic out.  The one property stated here that depends on it, the
    position of the minimum after smoothing, is settled on a second
    embedding of [np.argmin] and of [get_smoothed_trace] over binary64
    doubles, the module [Float64].

    Exceptions.  A computation that can raise returns [result A]. *)

From Stdlib Require Import QArith Qround Qabs Lqa ZArith Lia Ascii.
From Stdlib Require PrimFloat.
From stdpp Require Import gmap strings list sorting.

Local Open Scope Z_scope.

(** ** Exceptions *)

Inductive exn : Set := ValueError | IndexError | KeyError.

Inductive result (A : Type) : Type :=
| Ok (a : A)
| Raise (e : exn).
Arguments Ok {A} a.
Arguments Raise {A} e.

#[global] Instance result_ret : MRet result := @Ok.

#[global] Instance result_bind : MBind result := fun A B k r =>
  match r with
  | Ok a => k a
  | Raise e => Raise e
  end.

(** ** Python lists *)

Module Py.

(** Clamping of one slice bound, as [slice.indices] does for step 1. *)
Definition bound (len i : Z) : Z :=
  if i <? 0 then Z.max 0 (i + len) else Z.min i len.

(** [l[lo:hi]]; an omitted bound is [None]. *)
Definition slice {A : Type} (l : list A) (lo hi : option Z) : list A :=
  let len := Z.of_nat (length l) in
  let a := match lo with Some i => bound len i | None => 0 end in
  let b := match hi with Some i => bound len i | None => len end in
  firstn (Z.to_nat (b - a)) (skipn (Z.to_nat a) l).

(** [l[i]]: a negative subscript counts from the end. *)
Definition index {A : Type} (l : list A) (i : Z) : result A :=
  let len := Z.of_nat (length l) in
  let j := if i <? 0 then i + len else i in
  if (j <? 0) || (len <=? j) then Raise IndexError
  else match l !! Z.to_nat j with
       | Some x => Ok x
       | None => Raise IndexError
       end.

(** [enumerate(l)] *)
Definition enumerate {A : Type} (l : list A) : list (Z * A) :=
  combine (map Z.of_nat (seq 0 (length l))) l.

Definition Qltb (x y : Q) : bool := negb (Qle_bool y x).

(** [max(l)] and [min(l)]: the first extremal element; [ValueError] on
    an empty argument. *)
Definition max (l : list Q) : result Q :=
  match l with
  | [] => Raise ValueError
  | x :: r => Ok (fold_left (fun best y => if Qltb best y then y else best) r x)
  end.

Definition min (l : list Q) : result Q :=
  match l with
  | [] => Raise ValueError
  | x :: r => Ok (fold_left (fun best y => if Qltb y best then y else best) r x)
  end.

(** Truth value of an optional integer: [None] and [0] are false. *)
Definition truthy (o : option Z) : bool :=
  match o with
  | None => false
  | Some z => negb (z =? 0)
  end.

(** [s.split(sep)] for a separator of one character: the pieces of [s]
    between the occurrences of [sep]; there is always at least one piece. *)
Fixpoint split (sep : Ascii.ascii) (s : string) : list string :=
  match s with
  | EmptyString => [EmptyString]
  | String c r =>
      if Ascii.eqb c sep then EmptyString :: split sep r
      else match split sep r with
           | piece :: pieces => String c piece :: pieces
           | [] => [String c EmptyString]
           end
  end.

(** [s.endswith(suffix)]: some tail of [s] is [suffix]. *)
Fixpoint endswith (s suffix : string) : bool :=
  String.eqb s suffix
  || match s with
     | EmptyString => false
     | String _ r => endswith r suffix
     end.

End Py.

(** ** numpy, scipy and pandas primitives *)

Module Np.

(** The running part of [argmin]: [best] is the smallest value seen so far,
    found at [besti]; [i] is the position of the head of [l]. *)
Fixpoint argmin_from (best : Q) (besti i : Z) (l : list Q) : Z :=
  match l with
  | [] => besti
  | x :: r =>
      if Py.Qltb x best then argmin_from x i (i + 1) r
      else argmin_from best besti (i + 1) r
  end.

(** [np.argmin]: position of the first occurrence of the minimum. *)
Definition argmin (l : list Q) : result Z :=
  match l with
  | [] => Raise ValueError
  | x :: r => Ok (argmin_from x 0 1 r)
  end.

Definition sum (l : list Q) : Q := fold_right Qplus 0%Q l.

(** [np.mean]: not-a-number ([None]) on an empty sequence. *)
Definition mean (l : list Q) : option Q :=
  match l with
  | [] => None
  | _ => Some (sum l / inject_Z (Z.of_nat (length l)))%Q
  end.

(** Population variance; [np.std] is its square root. *)
Definition var (l : list Q) : option Q :=
  match mean l with
  | None => None
  | Some m => mean (map (fun x => (x - m) * (x - m))%Q l)
  end.

(** [point > k * np.std(l)] for a coefficient [0 <= k], where [v] is
    [var l].  The standard deviation is irrational in general; since
    [k * sqrt v] is not negative the comparison is decided exactly on the
    squares.  Every comparison with not-a-number is false. *)
Definition gt_times_std (point k : Q) (v : option Q) : bool :=
  match v with
  | None => false
  | Some v => Py.Qltb 0 point && Py.Qltb (k * k * v) (point * point)
  end.

(** [np.rint]: to the nearest integer, ties to the even one. *)
Definition rint (x : Q) : Z :=
  let f := Qfloor x in
  let d := (x - inject_Z f)%Q in
  if Py.Qltb d (1 # 2) then f
  else if Py.Qltb (1 # 2) d then f + 1
  else if Z.even f then f else f + 1.

(** [np.round(x, decimals)]: scale by [10 ^ decimals], [rint], scale
    back; not-a-number stays so. *)
Definition round (x : option Q) (decimals : Z) : option Q :=
  match x with
  | None => None
  | Some q =>
      let scale := inject_Z (10 ^ decimals) in
      Some (inject_Z (rint (q * scale)) / scale)%Q
  end.

(** [data.take(i, mode='clip')] on a one-dimensional array. *)
Definition take_clip (d : list Q) (i : Z) : Q :=
  nth (Z.to_nat (Z.min (Z.max i 0) (Z.of_nat (length d) - 1))) d 0%Q.

(** [scipy.signal.argrelextrema(d, np.greater)[0]] with the default
    [order=1] and [mode='clip']: the positions whose value is greater than
    both neighbours, a missing neighbour being replaced by the edge value
    itself. *)
Definition argrelextrema_greater (d : list Q) : list Z :=
  filter (fun i => Is_true (Py.Qltb (take_clip d (i + 1)) (take_clip d i)
                            && Py.Qltb (take_clip d (i - 1)) (take_clip d i)))
         (map Z.of_nat (seq 0 (length d))).

(** The window of [Series.rolling(window=w)] that ends at position [i]:
    the last [w] observations up to and including [i]. *)
Definition window_at (w : nat) (xs : list Q) (i : nat) : list Q :=
  firstn (S i - (S i - w)) (skipn (S i - w) xs).

(** [Series.rolling(min_periods=mp, window=w).mean()]: not-a-number where
    the window holds fewer than [mp] observations. *)
Definition rolling_mean (mp w : nat) (xs : list Q) : list (option Q) :=
  map (fun i => let win := window_at w xs i in
                if (length win <? mp)%nat then None else mean win)
      (seq 0 (length xs)).

(** [Series.dropna().tolist()] *)
Definition dropna (xs : list (option Q)) : list Q := omap id xs.

End Np.

(** ** intelematics_write_features.py *)

Module Features.

(** A crank message: the two entries the feature extraction reads. *)
Record crank : Type := Crank {
  crank_profile : list Q;
  time : string
}.

(** Values held by a feature record. *)
Inductive value : Type :=
| Num (q : Q)
| NaN
| Str (s : string).

Definition of_float (x : option Q) : value :=
  match x with
  | Some q => Num q
  | None => NaN
  end.

(** The acceptance test shared by both branches of the loop of
    [get_local_maxima], with the left-to-right evaluation of [and]:
    [abs(t[peak] - t[peak - 10]) > 0.1 and t[peak - 10] < t[peak]
     and t[peak + 10] < t[peak]]. *)
Definition high_and_convex (smoothed_trace : list Q) (peak : Z) : result bool :=
  at_peak ← Py.index smoothed_trace peak;
  before ← Py.index smoothed_trace (peak - 10);
  if Py.Qltb (1 # 10) (Qabs (at_peak - before)) && Py.Qltb before at_peak then
    after ← Py.index smoothed_trace (peak + 10);
    Ok (Py.Qltb after at_peak)
  else Ok false.

(** The loop of [get_local_maxima] over the remaining [peaks]. *)
Fixpoint local_maxima_loop (smoothed_trace : list Q) (min_index : Z)
    (peaks : list Z) (local_maxima : list Z) (previous : option Z)
    : result (list Z) :=
  match peaks with
  | [] => Ok local_maxima
  | peak :: rest =>
      if negb (Py.truthy previous) then
        ok ← high_and_convex smoothed_trace peak;
        if (ok : bool) then
          local_maxima_loop smoothed_trace min_index rest
            (local_maxima ++ [peak + min_index]) (Some peak)
        else local_maxima_loop smoothed_trace min_index rest local_maxima previous
      else
        let prev := default 0 previous in
        ok ← (if 10 <=? Z.abs (peak - prev)
              then high_and_convex smoothed_trace peak else Ok false);
        if (ok : bool) then
          local_maxima_loop smoothed_trace min_index rest
            (local_maxima ++ [peak + min_index]) (Some peak)
        else local_maxima_loop smoothed_trace min_index rest local_maxima previous
  end.

Definition get_local_maxima (smoothed_trace : list Q) (min_index : Z)
    : result (list Z) :=
  local_maxima_loop smoothed_trace min_index
    (Np.argrelextrema_greater (Py.slice smoothed_trace None (Some (-10))))
    [] None.

(** [(domain[index+1] - domain[index]) * 10] for every [index] of
    [domain[:-1]]. *)
Fixpoint get_diff_times_10 (domain : list Q) : list Q :=
  match domain with
  | x :: (y :: _) as rest => ((y - x) * 10)%Q :: get_diff_times_10 rest
  | _ => []
  end.

Definition get_end_of_mcv_domain (smoothed_trace : list Q) : result Z :=
  argmin ← Np.argmin smoothed_trace;
  let domain :=
    get_diff_times_10 (Py.slice smoothed_trace (Some argmin) (Some (-30))) in
  let variance := Np.var domain in
  let end_candidates :=
    omap (fun '(index, point) =>
            if Np.gt_times_std point (5 # 2) variance
            then Some (index + argmin) else None)
         (Py.enumerate domain) in
  Py.index end_candidates (-1).

Definition project_last_maximum_on_curve (smoothed_trace : list Q)
    (last_maximum : Z) : result (option Z) :=
  let domain :=
    Py.slice smoothed_trace (Some (last_maximum + 10)) (Some (-10)) in
  limit ← Py.index smoothed_trace last_maximum;
  Ok (match find (fun '(index, point) => Py.Qltb limit point)
                   (Py.enumerate domain) with
        | Some (index, _) => Some (last_maximum + index + 10)
        | None => None
        end).

Definition get_iv (smoothed_trace : list Q) (minimum_index : Z) : result Q :=
  Py.max (Py.slice smoothed_trace None (Some (minimum_index + 1))).

Definition get_lvv (smoothed_trace : list Q) : result Q :=
  Py.min smoothed_trace.

(** [projection if projection else end_mcv_domain]: the choice made in
    [get_mcv] on the truth value of [projection]. *)
Definition average_ends (projection : option Z) (end_mcv_domain : Z) : Z :=
  if Py.truthy projection then default 0 projection else end_mcv_domain.

Definition get_mcv (smoothed_trace : list Q) (minimum_index : Z)
    : result (option Q) :=
  end_mcv_domain ← get_end_of_mcv_domain smoothed_trace;
  local_maxima ← get_local_maxima
    (Py.slice smoothed_trace (Some minimum_index) (Some end_mcv_domain))
    minimum_index;
  match local_maxima with
  | [] =>
      Ok (Np.round
              (Np.mean (Py.slice smoothed_trace
                          (Some minimum_index) (Some end_mcv_domain))) 2)
  | _ =>
      last_maximum ← Py.index local_maxima (-1);
      projection ← project_last_maximum_on_curve smoothed_trace last_maximum;
      Ok (Np.round
              (Np.mean (Py.slice smoothed_trace
                          (Some minimum_index)
                          (Some (average_ends projection end_mcv_domain)))) 2)
  end.

Definition get_smoothed_trace (c : crank) (window : nat) : result (list Q) :=
  index_min ← Np.argmin (crank_profile c);
  Ok (Py.slice (crank_profile c) None (Some (index_min + 1))
        ++ Np.dropna (Np.rolling_mean 1 window
             (Py.slice (crank_profile c) (Some (index_min + 1)) None))).

Definition extract_features (c : crank) : result (gmap string value) :=
  smoothed_trace ← get_smoothed_trace c 5;
  min_index ← Np.argmin smoothed_trace;
  iv ← get_iv smoothed_trace min_index;
  mcv ← get_mcv smoothed_trace min_index;
  lvv ← get_lvv smoothed_trace;
  Ok (<["iv" := Num iv]> (<["lvv" := Num lvv]>
         (<["mcv" := of_float mcv]> (<["time" := Str (time c)]> ∅)))).

(** *** The script run as [__main__]

    The directory tree is an input: [os.walk] is the list of the visited
    directories, each with the names [os.listdir] returns for it and, for
    every name, the crank [json.load] reads from that file.  The state is
    the text written to the result file so far. *)
Section driver.

(** [json.dumps] on a feature record. *)
Context (dumps : gmap string value -> string).

(** The loop over [os.listdir(root)]: for a name ending in [.json] the
    path and a space are written before the features are extracted, the
    dumped features and a line feed after. *)
Fixpoint write_directory (root : string) (files : list (string * crank))
    (result_file : string) : string * result unit :=
  match files with
  | [] => (result_file, Ok tt)
  | (file, data) :: rest =>
      if Py.endswith file ".json" then
        let result_file := result_file +:+ (root +:+ "/" +:+ file) in
        let result_file := result_file +:+ " " in
        match extract_features data with
        | Ok features =>
            let result_file := result_file +:+ dumps features in
            write_directory root rest
              (result_file +:+ String (Ascii.ascii_of_nat 10) "")
        | Raise e => (result_file, Raise e)
        end
      else write_directory root rest result_file
  end.

(** The loop over [os.walk('anwb_data')]: only a directory whose last path
    component is [crankData] is read. *)
Fixpoint main (walk : list (string * list (string * crank)))
    (result_file : string) : string * result unit :=
  match walk with
  | [] => (result_file, Ok tt)
  | (root, files) :: rest =>
      match Py.index (Py.split "/"%char root) (-1) with
      | Raise e => (result_file, Raise e)
      | Ok last_component =>
          if String.eqb last_component "crankData" then
            match write_directory root files result_file with
            | (result_file, Ok _) => main rest result_file
            | (result_file, Raise e) => (result_file, Raise e)
            end
          else main rest result_file
      end
  end.

End driver.

End Features.

(** ** The smoothing on double-precision numbers

    [np.argmin] and [get_smoothed_trace] once more, on binary64 doubles:
    the operations round to nearest as the hardware does, and a decimal
    literal stands for the nearest double, as in Python.  The mean of a
    window is the sum of its observations, accumulated from the left,
    divided by their number. *)

Module Float64.

Import PrimFloat.
#[local] Set Warnings "-inexact-float".

(** [not (x >= best)], the test on which [np.argmin] moves to [x]: it holds
    when [x] is smaller and when one of the two is not a number. *)
Definition below (x best : float) : bool := negb (leb best x).

(** The running part of [argmin]: [best] is the smallest value seen so far,
    found at [besti]; [i] is the position of the head of [l].  The scan
    stops on a value that is not a number. *)
Fixpoint argmin_from (best : float) (besti i : Z) (l : list float) : Z :=
  match l with
  | [] => besti
  | x :: r =>
      if is_nan best then besti
      else if below x best then argmin_from x i (i + 1) r
      else argmin_from best besti (i + 1) r
  end.

(** [np.argmin]: position of the first value that is not a number if there
    is one, of the first occurrence of the minimum otherwise. *)
Definition argmin (l : list float) : result Z :=
  match l with
  | [] => Raise ValueError
  | x :: r => Ok (argmin_from x 0 1 r)
  end.

(** The sum of the observations, accumulated from the left. *)
Definition sum (l : list float) : float := fold_left add l 0%float.

(** A number of observations as a double. *)
Fixpoint of_nat (n : nat) : float :=
  match n with
  | O => 0%float
  | S k => (of_nat k + 1)%float
  end.

(** [np.mean]: not a number on an empty sequence. *)
Definition mean (l : list float) : float := (sum l / of_nat (length l))%float.

(** [Series.dropna().tolist()] *)
Definition dropna (xs : list float) : list float :=
  filter (fun x => Is_true (negb (is_nan x))) xs.

(** The observations of the window of [Series.rolling(window=w)] that ends
    at position [i]: those of the last [w] values up to and including [i]
    that are numbers. *)
Definition window_at (w : nat) (xs : list float) (i : nat) : list float :=
  dropna (firstn (S i - (S i - w)) (skipn (S i - w) xs)).

(** [Series.rolling(min_periods=mp, window=w).mean()]: not a number where
    the window holds fewer than [mp] observations. *)
Definition rolling_mean (mp w : nat) (xs : list float) : list float :=
  map (fun i => let win := window_at w xs i in
                if (length win <? mp)%nat then nan else mean win)
      (seq 0 (length xs)).

(** A crank message: the two entries the feature extraction reads. *)
Record crank : Type := Crank {
  crank_profile : list float;
  time : string
}.

Definition get_smoothed_trace (c : crank) (window : nat) : result (list float) :=
  index_min ← argmin (crank_profile c);
  Ok (Py.slice (crank_profile c) None (Some (index_min + 1))
        ++ dropna (rolling_mean 1 window
             (Py.slice (crank_profile c) (Some (index_min + 1)) None))).

(** A start at 5.0, a plateau of seven samples at 0.7, then 1.0 and 9.0. *)
Definition plateau_profile : list float :=
  [5.0%float] ++ replicate 7 0.7%float ++ replicate 20 1.0%float
  ++ replicate 40 9.0%float.

End Float64.

(** ** intelematics_write_csv_from_es.py *)

Module CsvFromEs.

(** [file.split('.')[0] + '.csv']: the name of the file written for the
    input [file]. *)
Definition csv_file (file : string) : result string :=
  stem ← Py.index (Py.split "."%char file) 0;
  Ok (stem +:+ ".csv").

Section converter.

(** The values of a result's fields and Python's [str] on them. *)
Context {V : Type} (str : V -> string).

(** One element of [data['hits']['hits']]; [source] is its ['_source']
    object. *)
Record hit : Type := Hit { source : gmap string V }.

(** The parsed document, reduced to the list [data['hits']['hits']]. *)
Record document : Type := Document { hits : list hit }.

(** The line feed written by [csvfile.write('\n')]. *)
Definition newline : string := String (Ascii.ascii_of_nat 10) "".

(** [sorted(d.keys())]: the keys are distinct and the order on strings is
    total and antisymmetric, so the result depends on the set of keys
    only. *)
Definition sorted_keys (d : gmap string V) : list string :=
  merge_sort String.le (elements (dom d)).

(** The header loop: [csvfile.write(header + ',')] for every header. *)
Definition write_header (headers : list string) (csvfile : string) : string :=
  fold_left (fun file header => file +:+ (header +:+ ",")) headers csvfile.

(** The inner loop over one result:
    [csvfile.write(str(line['_source'][key]) + ',')] for every key. *)
Fixpoint write_cells (d : gmap string V) (keys : list string)
    (csvfile : string) : string * result unit :=
  match keys with
  | [] => (csvfile, Ok tt)
  | key :: rest =>
      match d !! key with
      | Some v => write_cells d rest (csvfile +:+ (str v +:+ ","))
      | None => (csvfile, Raise KeyError)
      end
  end.

(** The outer loop over the results, a newline closing every line. *)
Fixpoint write_lines (lines : list hit) (csvfile : string)
    : string * result unit :=
  match lines with
  | [] => (csvfile, Ok tt)
  | line :: rest =>
      match write_cells (source line) (sorted_keys (source line)) csvfile with
      | (csvfile, Ok _) => write_lines rest (csvfile +:+ newline)
      | (csvfile, Raise e) => (csvfile, Raise e)
      end
  end.

(** The body run for one input file: the text left in the output file
    (opened with mode ['w'], so it starts empty) and how the body ended. *)
Definition convert (data : document) : string * result unit :=
  let csvfile := "" in
  match Py.index (hits data) 0 with
  | Raise e => (csvfile, Raise e)
  | Ok first =>
      let csvfile := write_header (sorted_keys (source first)) csvfile in
      let csvfile := csvfile +:+ newline in
      write_lines (hits data) csvfile
  end.

(** The loop over [os.listdir('.')].  The directory is an input: [listing]
    gives every name with the document [json.load] reads from that file.
    [files] maps the name of every file written so far to its content;
    opening a file with mode ['w'] replaces what it held.  An exception
    ends the run. *)
Fixpoint convert_all (listing : list (string * document))
    (files : gmap string string) : gmap string string * result unit :=
  match listing with
  | [] => (files, Ok tt)
  | (file, data) :: rest =>
      if Py.endswith file ".json" then
        match csv_file file with
        | Raise e => (files, Raise e)
        | Ok name =>
            match convert data with
            | (content, Ok _) => convert_all rest (<[name := content]> files)
            | (content, Raise e) => (<[name := content]> files, Raise e)
            end
        end
      else convert_all rest files
  end.

(** *** The table the specification describes *)

Fixpoint join (cells : list string) : string :=
  match cells with
  | [] => ""
  | c :: rest => c +:+ ("," +:+ join rest)
  end.

(** One line: the cells, each followed by a comma, and a newline. *)
Definition row (cells : list string) : string := join cells +:+ newline.

(** The values of [d] in the order of [keys]; an absent field is rendered
    by [missing]. *)
Definition values_at (missing : string) (keys : list string)
    (d : gmap string V) : list string :=
  map (fun k => from_option str missing (d !! k)) keys.

(** A header row of [keys], then one line per result with its values in
    the order of [columns result]. *)
Definition table (missing : string) (keys : list string)
    (columns : hit -> list string) (lines : list hit) : string :=
  row keys +:+
  fold_right String.append ""
    (map (fun line => row (values_at missing (columns line) (source line)))
         lines).

(** The table of the specification for a document whose first result is
    [first]: the header is the sorted field names of [first] and every
    line follows the order of the header. *)
Definition header_order_table (first : hit) (data : document) : string :=
  table "" (sorted_keys (source first))
    (fun _ => sorted_keys (source first)) (hits data).

(** What the converter writes: the same header, every line in the order
    of its own sorted field names. *)
Definition own_order_table (first : hit) (data : document) : string :=
  table "" (sorted_keys (source first))
    (fun line => sorted_keys (source line)) (hits data).

End converter.
End CsvFromEs.

(** ** The behaviour the specification describes *)

Module Spec.

Definition average (l : list Q) : Q :=
  (Np.sum l / inject_Z (Z.of_nat (length l)))%Q.

(** The trailing moving average at position [i]: over however many points
    exist while fewer than [w] are available, over the last [w] points
    thereafter. *)
Definition trailing_average (w : nat) (xs : list Q) (i : nat) : Q :=
  if (S i <? w)%nat then average (take (S i) xs)
  else average (take w (drop (S i - w) xs)).

Definition moving_average (w : nat) (xs : list Q) : list Q :=
  map (trailing_average w xs) (seq 0 (length xs)).

(** The first position [j] with [lo <= j < hi] whose value exceeds
    [limit]. *)
Definition first_above (t : list Q) (limit : Q) (lo hi : nat) : option nat :=
  find (fun j => Py.Qltb limit (nth j t 0%Q)) (seq lo (hi - lo)).

(** The projection of the maximum at [last_maximum]: the first point of
    [t[last_maximum+10 : len-10]] above [t[last_maximum]]. *)
Definition projection (t : list Q) (last_maximum : nat) : option nat :=
  first_above t (nth last_maximum t 0%Q)
    (last_maximum + 10) (length t - 10).

(** The upper bound of the averaging domain, given the accepted local
    maxima of [t[min_index:domain_end]]. *)
Definition upper_bound (t : list Q) (local_maxima : list Z)
    (domain_end : Z) : Z :=
  match last local_maxima with
  | None => domain_end
  | Some last_maximum =>
      match projection t (Z.to_nat last_maximum) with
      | Some j => Z.of_nat j
      | None => domain_end
      end
  end.

(** [i] is the position of the first occurrence of the minimum of [l]. *)
Definition first_minimum (l : list Q) (i : nat) : Prop :=
  exists before m after,
    l = before ++ m :: after /\ length before = i /\
    Forall (fun x => (m < x)%Q) before /\
    Forall (fun x => (m <= x)%Q) after.

(** No point of the scaled difference of [t[argmin:-30]] exceeds 2.5
    times the standard deviation of that difference. *)
Definition no_surge (t : list Q) : Prop :=
  forall argmin, Np.argmin t = Ok argmin ->
    let domain :=
      Features.get_diff_times_10 (Py.slice t (Some argmin) (Some (-30))) in
    Forall (fun point =>
              Np.gt_times_std point (5 # 2) (Np.var domain) = false) domain.

(** A position at which the three subscripts of the acceptance test of
    [get_local_maxima] are legal. *)
Definition testable (t : list Q) (p : Z) : Prop :=
  0 < p /\ p + 10 < Z.of_nat (length t) - 1.

End Spec.

(** ** Evaluation on reduced fractions *)

(** The quotients of [Np.sum], [Np.mean] and [Np.var] are never reduced, so
    their numerators and denominators grow with the length of the sequence.
    These variants reduce every intermediate result to lowest terms; they
    are shown below to agree with the definitions above and serve to
    evaluate [get_end_of_mcv_domain] on concrete traces. *)
Module Reduced.

Definition sum (l : list Q) : Q :=
  fold_right (fun x acc => Qred (x + acc)) 0%Q l.

Definition mean (l : list Q) : option Q :=
  match l with
  | [] => None
  | _ => Some (Qred (sum l / inject_Z (Z.of_nat (length l))))
  end.

Definition var (l : list Q) : option Q :=
  match mean l with
  | None => None
  | Some m => mean (map (fun x => Qred ((x - m) * (x - m))) l)
  end.

Definition get_end_of_mcv_domain (smoothed_trace : list Q) : result Z :=
  argmin ← Np.argmin smoothed_trace;
  let domain :=
    Features.get_diff_times_10
      (Py.slice smoothed_trace (Some argmin) (Some (-30))) in
  let variance := var domain in
  let end_candidates :=
    omap (fun '(index, point) =>
            if Np.gt_times_std point (5 # 2) variance
            then Some (index + argmin) else None)
         (Py.enumerate domain) in
  Py.index end_candidates (-1).

End Reduced.

(** ** Inputs used in the examples *)

Definition of_ints (l : list Z) : list Q := map inject_Z l.

(** The profile of the round-trip scenario. *)
Definition scenario_profile : list Q :=
  of_ints [10;9;8;2;3;5;9;12;11;10;9;8;7;7;6;6;6;6;6;6;6;6;6;6;6;6;6;6;6;6;6;6;6].

(** The same profile followed by thirty more samples of the plateau. *)
Definition long_profile : list Q := scenario_profile ++ of_ints (replicate 30 6).

(** A dip, a rounded peak fourteen samples later, a plateau and a late
    surge. *)
Definition peak_profile : list Q :=
  of_ints ([12;11;10;2;3;3;3;3;3;3;3;3;4;6;8;8;8]
           ++ replicate 14 5 ++ replicate 45 30).

(** A dip followed by a flat trace. *)
Definition flat_profile : list Q := of_ints ([5;1] ++ replicate 40 1).

(** A spike right after the minimum, a flat stretch and a late surge. *)
Definition spike_profile : list Q :=
  of_ints ([0;25] ++ replicate 20 0 ++ replicate 45 1000).

(** Two results, the second with one more field than the first. *)
Definition uneven_document : CsvFromEs.document (V := string) :=
  CsvFromEs.Document
    [CsvFromEs.Hit {[ "a" := "1" ]};
     CsvFromEs.Hit (<["a" := "2"]> {[ "b" := "3" ]})].

(** Two results with the same fields. *)
Definition even_document : CsvFromEs.document (V := string) :=
  CsvFromEs.Document
    [CsvFromEs.Hit (<["b" := "2"]> {[ "a" := "1" ]});
     CsvFromEs.Hit (<["a" := "3"]> {[ "b" := "4" ]})].

(** A single peak right after the start of a flat trace. *)
Definition early_peak : list Q := of_ints [0;5;0;0;0;0;0;0;0;0;0;0;0].

(** Two peaks eleven samples apart on a flat trace. *)
Definition two_peaks : list Q :=
  of_ints (replicate 10 0 ++ [5] ++ replicate 10 0 ++ [5] ++ replicate 11 0).

(** A dip followed by a rise to a plateau. *)
Definition rising_trace : list Q := of_ints ([9;1;2;4;8] ++ replicate 30 8).

(** A dip followed by a single step up, 32 samples before the end. *)
Definition nan_profile : list Q := of_ints ([9;1;2] ++ replicate 30 2).

(** * Properties *)

Import Features.

(** ** Comparisons and Python list primitives *)

Lemma Qltb_lt (x y : Q) : Py.Qltb x y = true <-> (x < y)%Q.
Proof.
  unfold Py.Qltb. rewrite negb_true_iff.
  destruct (Qle_bool y x) eqn:E.
  - apply Qle_bool_iff in E. split; [discriminate | intros H; exfalso; lra].
  - split; [intros _ | reflexivity].
    apply Qnot_le_lt. intros H. apply Qle_bool_iff in H. congruence.
Qed.

Lemma Qltb_ge (x y : Q) : Py.Qltb x y = false <-> (y <= x)%Q.
Proof.
  destruct (Py.Qltb x y) eqn:E.
  - apply Qltb_lt in E. split; [discriminate | intros H; exfalso; lra].
  - split; [intros _ | reflexivity].
    apply Qnot_lt_le. intros H. apply Qltb_lt in H. congruence.
Qed.

Lemma slice_upto {A : Type} (l : list A) (k : Z) :
  0 <= k -> Py.slice l None (Some k) = take (Z.to_nat k) l.
Proof.
  intros Hk. unfold Py.slice, Py.bound.
  destruct (Z.ltb_spec k 0) as [?|_]; [lia|].
  rewrite drop_0, Z.sub_0_r.
  destruct (Z.le_gt_cases k (Z.of_nat (length l))).
  - by rewrite Z.min_l.
  - rewrite Z.min_r, Nat2Z.id by lia.
    rewrite !take_ge; [done | lia | lia].
Qed.

Lemma slice_from {A : Type} (l : list A) (k : Z) :
  0 <= k -> Py.slice l (Some k) None = drop (Z.to_nat k) l.
Proof.
  intros Hk. unfold Py.slice, Py.bound.
  destruct (Z.ltb_spec k 0) as [?|_]; [lia|].
  destruct (Z.le_gt_cases k (Z.of_nat (length l))).
  - rewrite Z.min_l by lia. apply take_ge. rewrite length_drop. lia.
  - rewrite Z.min_r, Nat2Z.id by lia.
    rewrite !drop_ge by lia. by rewrite take_nil.
Qed.

Lemma slice_length_le {A : Type} (l : list A) (a : Z) (hi : option Z) :
  0 <= a ->
  (length (Py.slice l (Some a) hi) <= length l - Z.to_nat a)%nat.
Proof.
  intros Ha. unfold Py.slice, Py.bound.
  destruct (Z.ltb_spec a 0) as [?|_]; [lia|].
  rewrite length_take, length_drop.
  destruct (Z.le_gt_cases a (Z.of_nat (length l))).
  - rewrite Z.min_l by lia. lia.
  - rewrite Z.min_r by lia. lia.
Qed.

Lemma slice_drop_last {A : Type} (l : list A) (k : Z) :
  0 < k ->
  Py.slice l None (Some (- k)) = take (length l - Z.to_nat k) l.
Proof.
  intros Hk. unfold Py.slice, Py.bound.
  destruct (Z.ltb_spec (- k) 0) as [_|?]; [|lia].
  rewrite drop_0, Z.sub_0_r. f_equal. lia.
Qed.

Lemma index_nonneg {A : Type} (l : list A) (i : Z) (x : A) :
  0 <= i -> l !! Z.to_nat i = Some x -> Py.index l i = Ok x.
Proof.
  intros Hi Hx. unfold Py.index.
  pose proof (lookup_lt_Some _ _ _ Hx) as Hlt.
  destruct (Z.ltb_spec i 0) as [?|_]; [lia|].
  destruct (Z.ltb_spec i 0) as [?|_]; [lia|].
  destruct (Z.leb_spec (Z.of_nat (length l)) i) as [?|_]; [lia|].
  simpl. by rewrite Hx.
Qed.

Lemma index_negative {A : Type} (l : list A) (i : Z) (x : A) :
  i < 0 -> 0 <= i + Z.of_nat (length l) ->
  l !! Z.to_nat (i + Z.of_nat (length l)) = Some x -> Py.index l i = Ok x.
Proof.
  intros Hi Hi' Hx. unfold Py.index.
  pose proof (lookup_lt_Some _ _ _ Hx) as Hlt.
  destruct (Z.ltb_spec i 0) as [_|?]; [|lia].
  destruct (Z.ltb_spec (i + Z.of_nat (length l)) 0) as [?|_]; [lia|].
  destruct (Z.leb_spec (Z.of_nat (length l)) (i + Z.of_nat (length l))) as [?|_]; [lia|].
  simpl. by rewrite Hx.
Qed.

Lemma index_out_of_range {A : Type} (l : list A) (i : Z) :
  Z.of_nat (length l) <= i -> Py.index l i = Raise IndexError.
Proof.
  intros Hi. unfold Py.index.
  destruct (Z.ltb_spec i 0) as [?|_]; [lia|].
  destruct (Z.ltb_spec i 0) as [?|_]; [lia|].
  destruct (Z.leb_spec (Z.of_nat (length l)) i) as [_|?]; [done|lia].
Qed.

Lemma index_last {A : Type} (l : list A) (x : A) :
  Py.index (l ++ [x]) (-1) = Ok x.
Proof.
  apply index_negative; rewrite ?length_app; simpl; [lia | lia |].
  replace (Z.to_nat (-1 + Z.of_nat (length l + 1))) with (length l + 0)%nat by lia.
  by rewrite lookup_app_r, Nat.add_0_r, Nat.sub_diag by lia.
Qed.

Lemma index_empty {A : Type} (i : Z) : Py.index (@nil A) i = Raise IndexError.
Proof.
  unfold Py.index. simpl. by repeat case_match.
Qed.

(** ** [np.argmin] finds the first occurrence of the minimum *)

Lemma argmin_from_stays (l : list Q) (best : Q) (besti i : Z) :
  Forall (fun x => (best <= x)%Q) l -> Np.argmin_from best besti i l = besti.
Proof.
  intros H. revert i. induction H as [|x l Hx _ IH]; intros i; simpl; [done|].
  apply Qltb_ge in Hx. by rewrite Hx.
Qed.

Lemma argmin_from_first (before after : list Q) (m best : Q) (besti i : Z) :
  (m < best)%Q ->
  Forall (fun x => (m < x)%Q) before ->
  Forall (fun x => (m <= x)%Q) after ->
  Np.argmin_from best besti i (before ++ m :: after)
  = i + Z.of_nat (length before).
Proof.
  intros Hm Hb Ha. revert best besti i Hm.
  induction Hb as [|x before Hx _ IH]; intros best besti i Hm; simpl.
  - apply Qltb_lt in Hm. rewrite Hm, argmin_from_stays by done. lia.
  - destruct (Py.Qltb x best); rewrite IH by done; lia.
Qed.

Lemma argmin_first_minimum (l : list Q) (i : nat) :
  Spec.first_minimum l i -> Np.argmin l = Ok (Z.of_nat i).
Proof.
  intros (before & m & after & -> & <- & Hb & Ha).
  destruct Hb as [|x before Hx Hb]; simpl.
  - by rewrite argmin_from_stays.
  - rewrite argmin_from_first by done. f_equal. lia.
Qed.

Lemma argmin_from_sound (l : list Q) (best : Q) (besti i : Z) :
  (Np.argmin_from best besti i l = besti /\ Forall (fun x => (best <= x)%Q) l)
  \/ exists before m after,
       l = before ++ m :: after /\
       Np.argmin_from best besti i l = i + Z.of_nat (length before) /\
       (m < best)%Q /\
       Forall (fun x => (m < x)%Q) before /\
       Forall (fun x => (m <= x)%Q) after.
Proof.
  revert best besti i. induction l as [|x l IH]; intros best besti i; simpl.
  - left. by split.
  - destruct (Py.Qltb x best) eqn:E.
    + apply Qltb_lt in E.
      destruct (IH x i (i + 1)) as [[-> H]|(before & m & after & -> & -> & Hm & Hb & Ha)].
      * right. exists [], x, l. simpl. repeat split; [lia | done | done | done].
      * right. exists (x :: before), m, after. simpl.
        repeat split; [lia | lra | | done]. by constructor.
    + apply Qltb_ge in E.
      destruct (IH best besti (i + 1)) as [[-> H]|(before & m & after & -> & -> & Hm & Hb & Ha)].
      * left. split; [done|]. by constructor.
      * right. exists (x :: before), m, after. simpl.
        repeat split; [lia | done | | done]. constructor; [lra | done].
Qed.

Lemma argmin_sound (l : list Q) (i : Z) :
  Np.argmin l = Ok i -> 0 <= i /\ Spec.first_minimum l (Z.to_nat i).
Proof.
  destruct l as [|x l]; simpl; [done|]. intros [= <-].
  destruct (argmin_from_sound l x 0 1) as [[-> H]|(before & m & after & -> & -> & Hm & Hb & Ha)].
  - split; [done|]. by exists [], x, l.
  - split; [lia|]. exists (x :: before), m, after.
    repeat split; [simpl; lia | by constructor | done].
Qed.

Lemma argmin_nonempty (l : list Q) :
  l <> [] -> exists i, Np.argmin l = Ok i.
Proof. destruct l; [done | eauto]. Qed.

Lemma first_minimum_lt (l : list Q) (i : nat) :
  Spec.first_minimum l i -> (i < length l)%nat.
Proof.
  intros (before & m & after & -> & <- & _). rewrite length_app. simpl. lia.
Qed.

(** ** Smoothing *)

Lemma mean_average (l : list Q) :
  l <> [] -> Np.mean l = Some (Spec.average l).
Proof. by destruct l. Qed.

Lemma window_at_expanding (w : nat) (xs : list Q) (i : nat) :
  (S i < w)%nat -> Np.window_at w xs i = take (S i) xs.
Proof.
  intros H. unfold Np.window_at.
  replace (S i - w)%nat with 0%nat by lia. by rewrite drop_0, Nat.sub_0_r.
Qed.

Lemma window_at_full (w : nat) (xs : list Q) (i : nat) :
  (w <= S i)%nat -> Np.window_at w xs i = take w (drop (S i - w) xs).
Proof.
  intros H. unfold Np.window_at. f_equal. lia.
Qed.

Lemma window_at_length (w : nat) (xs : list Q) (i : nat) :
  (0 < w)%nat -> (i < length xs)%nat -> (0 < length (Np.window_at w xs i))%nat.
Proof.
  intros Hw Hi. unfold Np.window_at. rewrite length_take, length_drop. lia.
Qed.

Lemma rolling_mean_at (w : nat) (xs : list Q) (i : nat) :
  (0 < w)%nat -> (i < length xs)%nat ->
  (let win := Np.window_at w xs i in
   if (length win <? 1)%nat then None else Np.mean win)
  = Some (Spec.trailing_average w xs i).
Proof.
  intros Hw Hi. simpl.
  pose proof (window_at_length w xs i Hw Hi) as Hlen.
  destruct (Nat.ltb_spec (length (Np.window_at w xs i)) 1) as [?|_]; [lia|].
  rewrite mean_average by (intros E; rewrite E in Hlen; simpl in Hlen; lia).
  unfold Spec.trailing_average.
  destruct (Nat.ltb_spec (S i) w).
  - by rewrite window_at_expanding.
  - by rewrite window_at_full.
Qed.

Lemma dropna_map {A : Type} (f : A -> option Q) (g : A -> Q) (l : list A) :
  Forall (fun x => f x = Some (g x)) l -> Np.dropna (map f l) = map g l.
Proof.
  induction 1 as [|x l Hx _ IH]; simpl; [done|].
  unfold Np.dropna in *. simpl. rewrite Hx. simpl. by rewrite IH.
Qed.

Lemma dropna_rolling_mean (w : nat) (xs : list Q) :
  (0 < w)%nat ->
  Np.dropna (Np.rolling_mean 1 w xs) = Spec.moving_average w xs.
Proof.
  intros Hw. unfold Np.rolling_mean, Spec.moving_average.
  apply dropna_map, Forall_forall. intros i Hi.
  apply elem_of_seq in Hi. apply rolling_mean_at; lia.
Qed.

Lemma moving_average_length (w : nat) (xs : list Q) :
  length (Spec.moving_average w xs) = length xs.
Proof. unfold Spec.moving_average. by rewrite length_map, length_seq. Qed.

Lemma smoothed_trace_split (c : crank) (before after : list Q) (m : Q) :
  crank_profile c = before ++ m :: after ->
  Forall (fun x => (m < x)%Q) before ->
  Forall (fun x => (m <= x)%Q) after ->
  get_smoothed_trace c 5 = Ok (before ++ m :: Spec.moving_average 5 after).
Proof.
  intros Hp Hb Ha. unfold get_smoothed_trace.
  rewrite (argmin_first_minimum _ (length before))
    by (exists before, m, after; by rewrite Hp).
  simpl. f_equal.
  rewrite slice_upto, slice_from, dropna_rolling_mean by lia.
  replace (Z.to_nat (Z.of_nat (length before) + 1)) with (S (length before)) by lia.
  rewrite Hp.
  replace (before ++ m :: after) with ((before ++ [m]) ++ after)
    by (by rewrite <- app_assoc).
  rewrite take_app_length', drop_app_length' by (rewrite length_app; simpl; lia).
  by rewrite <- app_assoc.
Qed.

Lemma sum_ge (m : Q) (l : list Q) :
  Forall (fun x => (m <= x)%Q) l ->
  (inject_Z (Z.of_nat (length l)) * m <= Np.sum l)%Q.
Proof.
  induction 1 as [|x l Hx _ IH].
  - unfold Np.sum. simpl. change (inject_Z (Z.of_nat 0)) with 0%Q. lra.
  - change (Np.sum (x :: l)) with (x + Np.sum l)%Q.
    simpl length. rewrite Nat2Z.inj_succ. unfold Z.succ.
    rewrite inject_Z_plus. change (inject_Z 1) with 1%Q. lra.
Qed.

Lemma average_ge (m : Q) (l : list Q) :
  l <> [] -> Forall (fun x => (m <= x)%Q) l -> (m <= Spec.average l)%Q.
Proof.
  intros Hne H. unfold Spec.average.
  assert (0 < inject_Z (Z.of_nat (length l)))%Q as Hpos.
  { destruct l; [done|]. change 0%Q with (inject_Z 0).
    rewrite <- Zlt_Qlt. simpl length. lia. }
  apply Qle_shift_div_l; [done|].
  rewrite Qmult_comm. by apply sum_ge.
Qed.

Lemma moving_average_ge (m : Q) (w : nat) (xs : list Q) :
  (0 < w)%nat ->
  Forall (fun x => (m <= x)%Q) xs ->
  Forall (fun x => (m <= x)%Q) (Spec.moving_average w xs).
Proof.
  intros Hw H. unfold Spec.moving_average.
  apply Forall_map, Forall_forall. intros i Hi. apply elem_of_seq in Hi.
  pose proof (rolling_mean_at w xs i Hw ltac:(lia)) as E. simpl in E.
  pose proof (window_at_length w xs i Hw ltac:(lia)) as Hlen.
  destruct (Nat.ltb_spec (length (Np.window_at w xs i)) 1) as [?|_]; [lia|].
  assert (Np.window_at w xs i <> []) as Hne.
  { intros E'. rewrite E' in Hlen. simpl in Hlen. lia. }
  rewrite mean_average in E by done. injection E as <-.
  apply average_ge; [done|].
  unfold Np.window_at. by apply Forall_take, Forall_drop.
Qed.



(** ** The minimum after smoothing, on double-precision numbers *)

Lemma float_argmin_from_ge (l : list PrimFloat.float) (best : PrimFloat.float)
    (besti i : Z) :
  Float64.argmin_from best besti i l = besti
  \/ i <= Float64.argmin_from best besti i l.
Proof.
  revert best besti i. induction l as [|x l IH]; intros best besti i; simpl.
  - by left.
  - destruct (PrimFloat.is_nan best); [by left|].
    destruct (Float64.below x best).
    + destruct (IH x i (i + 1)) as [-> | H]; right; lia.
    + destruct (IH best besti (i + 1)) as [-> | H]; [by left | right; lia].
Qed.

Lemma float_argmin_from_split (l : list PrimFloat.float)
    (best : PrimFloat.float) (besti k j : Z) :
  besti < k -> k <= j ->
  Float64.argmin_from best besti k l = j ->
  exists lowest,
    l !! Z.to_nat (j - k) = Some lowest /\
    forall rolled,
      Float64.argmin_from best besti k (take (S (Z.to_nat (j - k))) l ++ rolled)
      = Float64.argmin_from lowest j (j + 1) rolled.
Proof.
  revert best besti k.
  induction l as [|x l IH]; intros best besti k Hb Hk Hj; simpl in Hj; [lia|].
  destruct (PrimFloat.is_nan best) eqn:Hnan; [lia|].
  destruct (Float64.below x best) eqn:Hx.
  - destruct (float_argmin_from_ge l x k (k + 1)) as [E | E]; rewrite Hj in E.
    + clear Hj. subst j. exists x. rewrite Z.sub_diag. split; [done|].
      intros rolled. simpl. by rewrite Hnan, Hx.
    + destruct (IH x k (k + 1)) as (lowest & Hl & Hr); [lia | lia | done |].
      exists lowest.
      replace (Z.to_nat (j - k)) with (S (Z.to_nat (j - (k + 1)))) by lia.
      split; [done|]. intros rolled.
      change (take (S (S (Z.to_nat (j - (k + 1))))) (x :: l))
        with (x :: take (S (Z.to_nat (j - (k + 1)))) l).
      simpl. rewrite Hnan, Hx. apply Hr.
  - destruct (float_argmin_from_ge l best besti (k + 1)) as [E | E];
      rewrite Hj in E; [lia|].
    destruct (IH best besti (k + 1)) as (lowest & Hl & Hr); [lia | lia | done |].
    exists lowest.
    replace (Z.to_nat (j - k)) with (S (Z.to_nat (j - (k + 1)))) by lia.
    split; [done|]. intros rolled.
    change (take (S (S (Z.to_nat (j - (k + 1))))) (x :: l))
      with (x :: take (S (Z.to_nat (j - (k + 1)))) l).
    simpl. rewrite Hnan, Hx. apply Hr.
Qed.

Lemma float_argmin_split (l : list PrimFloat.float) (i : Z) :
  Float64.argmin l = Ok i ->
  0 <= i /\
  exists lowest,
    l !! Z.to_nat i = Some lowest /\
    forall rolled,
      Float64.argmin (take (S (Z.to_nat i)) l ++ rolled)
      = Ok (Float64.argmin_from lowest i (i + 1) rolled).
Proof.
  destruct l as [|x l]; [done|]. simpl. intros [= Hi].
  destruct (float_argmin_from_ge l x 0 1) as [E | E]; rewrite Hi in E.
  - clear Hi. subst i. split; [done|]. exists x. split; [done|]. intros rolled.
    done.
  - split; [lia|].
    destruct (float_argmin_from_split l x 0 1 i) as (lowest & Hl & Hr);
      [lia | lia | done |].
    exists lowest.
    replace (Z.to_nat i) with (S (Z.to_nat (i - 1))) by lia.
    split; [done|]. intros rolled. simpl. f_equal. apply Hr.
Qed.

Lemma float_argmin_from_stays (l : list PrimFloat.float)
    (best : PrimFloat.float) (besti i : Z) :
  Forall (fun x => Float64.below x best = false) l ->
  Float64.argmin_from best besti i l = besti.
Proof.
  intros H. revert i. induction H as [|x l Hx _ IH]; intros i; simpl; [done|].
  rewrite Hx. by destruct (PrimFloat.is_nan best).
Qed.

Lemma float_argmin_from_stays_inv (l : list PrimFloat.float)
    (best : PrimFloat.float) (besti i : Z) :
  besti < i -> PrimFloat.is_nan best = false ->
  Float64.argmin_from best besti i l = besti ->
  Forall (fun x => Float64.below x best = false) l.
Proof.
  intros Hb Hnan. revert i Hb.
  induction l as [|x l IH]; intros i Hb; simpl; [done|].
  rewrite Hnan. destruct (Float64.below x best) eqn:Hx; intros H.
  - destruct (float_argmin_from_ge l x i (i + 1)) as [E | E];
      rewrite H in E; lia.
  - constructor; [done|]. apply (IH (i + 1)); [lia | done].
Qed.

Lemma float_argmin_from_nan (l : list PrimFloat.float)
    (best : PrimFloat.float) (besti i : Z) :
  PrimFloat.is_nan best = true -> Float64.argmin_from best besti i l = besti.
Proof. intros H. destruct l; simpl; [done|]. by rewrite H. Qed.

(** C6: on double-precision numbers the smoothed trace keeps the profile up
    to and including its minimum, found at the split point [index_min] of
    [get_smoothed_trace], and the minimum of the smoothed trace, the
    [min_index] that [extract_features] computes, is never before the split
    point.  The two coincide exactly when no rolling mean tests below the
    minimum of the profile (or that minimum is not a number): they need not,
    since rounding can put the mean of a window below its samples. *)
Theorem smoothed_argmin_not_before_split (c : Float64.crank) (index_min : Z) :
  Float64.argmin (Float64.crank_profile c) = Ok index_min ->
  exists (smoothed_trace rolled : list PrimFloat.float) (lowest : PrimFloat.float)
         (min_index : Z),
    rolled = Float64.dropna (Float64.rolling_mean 1 5
               (Py.slice (Float64.crank_profile c) (Some (index_min + 1)) None)) /\
    Float64.get_smoothed_trace c 5 = Ok smoothed_trace /\
    smoothed_trace
    = Py.slice (Float64.crank_profile c) None (Some (index_min + 1)) ++ rolled /\
    Py.index (Float64.crank_profile c) index_min = Ok lowest /\
    Py.index smoothed_trace index_min = Ok lowest /\
    Float64.argmin smoothed_trace = Ok min_index /\
    index_min <= min_index /\
    (min_index = index_min <->
     PrimFloat.is_nan lowest = true
     \/ Forall (fun mean => Float64.below mean lowest = false) rolled).
Proof.
  intros Hi.
  destruct (float_argmin_split _ _ Hi) as [Hi0 (lowest & Hl & Hr)].
  pose proof (lookup_lt_Some _ _ _ Hl) as Hlt.
  eexists _, _, lowest, _. split; [reflexivity|].
  unfold Float64.get_smoothed_trace. rewrite Hi. simpl.
  split; [reflexivity|]. split; [reflexivity|].
  rewrite slice_upto by lia.
  replace (Z.to_nat (index_min + 1)) with (S (Z.to_nat index_min)) by lia.
  split; [by apply index_nonneg|].
  split.
  { apply index_nonneg; [done|].
    rewrite lookup_app_l by (rewrite length_take; lia).
    rewrite lookup_take_lt by lia. done. }
  split; [apply Hr|].
  match goal with |- context [Float64.argmin_from lowest index_min _ ?r] =>
    set (rolled := r) end.
  split.
  { destruct (float_argmin_from_ge rolled lowest index_min (index_min + 1));
      lia. }
  split.
  - intros E. destruct (PrimFloat.is_nan lowest) eqn:Hnan; [by left|].
    right.
    apply (float_argmin_from_stays_inv _ _ index_min (index_min + 1));
      [lia | done | done].
  - intros [Hnan | Hall].
    + by apply float_argmin_from_nan.
    + by apply float_argmin_from_stays.
Qed.

Lemma smoothed_argmin_not_before_split_witness :
  exists (smoothed_trace rolled : list PrimFloat.float) (lowest : PrimFloat.float)
         (min_index : Z),
    rolled = Float64.dropna (Float64.rolling_mean 1 5
               (Py.slice Float64.plateau_profile (Some (1 + 1)) None)) /\
    Float64.get_smoothed_trace
      (Float64.Crank Float64.plateau_profile "2018-11-26T07:36") 5
    = Ok smoothed_trace /\
    smoothed_trace
    = Py.slice Float64.plateau_profile None (Some (1 + 1)) ++ rolled /\
    Py.index Float64.plateau_profile 1 = Ok lowest /\
    Py.index smoothed_trace 1 = Ok lowest /\
    Float64.argmin smoothed_trace = Ok min_index /\
    1 <= min_index /\
    (min_index = 1 <->
     PrimFloat.is_nan lowest = true
     \/ Forall (fun mean => Float64.below mean lowest = false) rolled).
Proof.
  apply (smoothed_argmin_not_before_split
           (Float64.Crank Float64.plateau_profile "2018-11-26T07:36") 1).
  vm_compute. reflexivity.
Defined.

(** C6, a profile on which the two differ: the minimum of the profile is
    the first 0.7, at position 1; [(0.7 + 0.7 + 0.7) / 3] rounds to
    0.6999999999999998, so the minimum of the smoothed trace is at
    position 4. *)
Lemma smoothing_moves_argmin_on_doubles :
  exists smoothed_trace,
    Float64.argmin Float64.plateau_profile = Ok 1 /\
    Float64.get_smoothed_trace
      (Float64.Crank Float64.plateau_profile "2018-11-26T07:36") 5
    = Ok smoothed_trace /\
    Float64.argmin smoothed_trace = Ok 4.
Proof.
  eexists. split; [|split].
  - vm_compute. reflexivity.
  - vm_compute. reflexivity.
  - vm_compute. reflexivity.
Qed.

(** ** Local maxima *)

Lemma index_in_range {A : Type} (l : list A) (i : Z) :
  - Z.of_nat (length l) <= i < Z.of_nat (length l) ->
  exists x, Py.index l i = Ok x.
Proof.
  intros Hi. destruct (Z.lt_ge_cases i 0).
  - destruct (lookup_lt_is_Some_2 l (Z.to_nat (i + Z.of_nat (length l)))) as [x Hx]; [lia|].
    exists x. apply index_negative; [lia | lia | done].
  - destruct (lookup_lt_is_Some_2 l (Z.to_nat i)) as [x Hx]; [lia|].
    exists x. by apply index_nonneg.
Qed.

Lemma take_clip_below (d : list Q) (i : Z) :
  i <= 0 -> Np.take_clip d i = Np.take_clip d 0.
Proof.
  intros Hi. unfold Np.take_clip. by rewrite (Z.max_r i 0), (Z.max_r 0 0) by lia.
Qed.

Lemma take_clip_above (d : list Q) (i : Z) :
  Z.of_nat (length d) - 1 <= i ->
  Np.take_clip d i = Np.take_clip d (Z.of_nat (length d) - 1).
Proof.
  intros Hi. unfold Np.take_clip. f_equal. lia.
Qed.

Lemma Qltb_irrefl (x : Q) : Py.Qltb x x = false.
Proof. apply Qltb_ge. lra. Qed.

(** The positions returned by [argrelextrema] are interior. *)
Lemma argrelextrema_interior (d : list Q) (p : Z) :
  p ∈ Np.argrelextrema_greater d -> 0 < p < Z.of_nat (length d) - 1.
Proof.
  unfold Np.argrelextrema_greater. intros [H Hp]%list_elem_of_filter.
  apply list_elem_of_fmap in Hp as (k & -> & Hk%elem_of_seq).
  apply Is_true_true, andb_true_iff in H as [Hnext Hprev].
  destruct (Z.eq_dec (Z.of_nat k) 0) as [E|?].
  { rewrite E, (take_clip_below d (0 - 1)), Qltb_irrefl in Hprev by lia. done. }
  destruct (Z.eq_dec (Z.of_nat k) (Z.of_nat (length d) - 1)) as [E|?]; [|lia].
  rewrite (take_clip_above d (Z.of_nat k + 1)) in Hnext by lia.
  rewrite E, Qltb_irrefl in Hnext. done.
Qed.

Lemma high_and_convex_total (t : list Q) (p : Z) :
  Spec.testable t p -> exists ok, high_and_convex t p = Ok ok.
Proof.
  intros [Hp0 Hp]. unfold high_and_convex.
  destruct (index_in_range t p) as [x ->]; [lia|].
  destruct (index_in_range t (p - 10)) as [y ->]; [lia|].
  destruct (index_in_range t (p + 10)) as [z ->]; [lia|].
  simpl. destruct (_ && _); eauto.
Qed.

Lemma peaks_testable (t : list Q) :
  Forall (Spec.testable t)
    (Np.argrelextrema_greater (Py.slice t None (Some (-10)))).
Proof.
  apply Forall_forall. intros p Hp%argrelextrema_interior.
  change (Some (-10)) with (Some (- (10))) in Hp.
  rewrite slice_drop_last, length_take in Hp by lia.
  unfold Spec.testable. lia.
Qed.

Lemma local_maxima_loop_ok (t : list Q) (min_index : Z) (peaks acc : list Z)
    (previous : option Z) :
  Forall (Spec.testable t) peaks ->
  exists added,
    local_maxima_loop t min_index peaks acc previous = Ok (acc ++ added) /\
    Forall (fun a => exists p, p ∈ peaks /\ a = p + min_index) added.
Proof.
  intros H. revert acc previous.
  induction H as [|peak peaks Hpeak _ IH]; intros acc previous.
  - exists []. simpl. by rewrite app_nil_r.
  - assert (forall ok : bool, exists added,
      (if ok
       then local_maxima_loop t min_index peaks
              (acc ++ [peak + min_index]) (Some peak)
       else local_maxima_loop t min_index peaks acc previous)
      = Ok (acc ++ added) /\
      Forall (fun a => exists p, p ∈ peak :: peaks /\ a = p + min_index) added)
      as Hstep.
    { intros [|].
      - destruct (IH (acc ++ [peak + min_index]) (Some peak)) as (added & -> & Hadded).
        exists ((peak + min_index) :: added). rewrite <- app_assoc. split; [done|].
        constructor.
        + exists peak. split; [left | done].
        + eapply Forall_impl; [exact Hadded|].
          intros a (p & Hp & ->). exists p. split; [by right | done].
      - destruct (IH acc previous) as (added & -> & Hadded).
        exists added. split; [done|].
        eapply Forall_impl; [exact Hadded|].
        intros a (p & Hp & ->). exists p. split; [by right | done]. }
    destruct (high_and_convex_total t peak Hpeak) as [ok Hok].
    simpl. destruct (negb (Py.truthy previous)).
    + rewrite Hok. apply Hstep.
    + destruct (10 <=? Z.abs (peak - default 0 previous)).
      * rewrite Hok. apply Hstep.
      * apply (Hstep false).
Qed.

(** [get_local_maxima] never raises, and every index it returns lies
    strictly after the offset and at least twelve positions before the end
    of the trace it was given. *)
Lemma get_local_maxima_ok (t : list Q) (min_index : Z) :
  exists local_maxima,
    get_local_maxima t min_index = Ok local_maxima /\
    Forall (fun a => min_index < a /\
                     a + 11 < min_index + Z.of_nat (length t)) local_maxima.
Proof.
  unfold get_local_maxima.
  destruct (local_maxima_loop_ok t min_index _ [] None (peaks_testable t))
    as (added & -> & Hadded).
  exists added. split; [done|].
  eapply Forall_impl; [exact Hadded|].
  intros a (p & Hp & ->).
  pose proof (peaks_testable t) as Ht.
  rewrite Forall_forall in Ht. destruct (Ht p Hp). lia.
Qed.

(** ** Projection of the last maximum *)

Lemma find_window (f : Q -> bool) (t : list Q) (last_maximum : Z) (n a k : nat) :
  (n <= length t - a)%nat ->
  last_maximum + 10 + Z.of_nat k = Z.of_nat a ->
  match find (fun '(index, point) => f point)
             (combine (map Z.of_nat (seq k n)) (take n (drop a t))) with
  | Some (index, _) => Some (last_maximum + index + 10)
  | None => None
  end
  = Z.of_nat <$> find (fun j => f (nth j t 0%Q)) (seq a n).
Proof.
  revert a k. induction n as [|n IH]; intros a k Hn Hk; [done|].
  destruct (lookup_lt_is_Some_2 t a) as [x Hx]; [lia|].
  rewrite (drop_S _ _ _ Hx). simpl.
  rewrite (nth_lookup_Some _ _ _ _ Hx).
  destruct (f x).
  - simpl. f_equal. lia.
  - apply IH; lia.
Qed.

Lemma projection_window (t : list Q) (last_maximum : Z) :
  0 <= last_maximum ->
  Py.slice t (Some (last_maximum + 10)) (Some (-10))
  = take (length t - 10 - (Z.to_nat last_maximum + 10))
         (drop (Z.to_nat last_maximum + 10) t).
Proof.
  intros H. unfold Py.slice, Py.bound.
  destruct (Z.ltb_spec (last_maximum + 10) 0) as [?|_]; [lia|].
  change (-10 <? 0) with true. cbv iota.
  destruct (Z.le_gt_cases (last_maximum + 10) (Z.of_nat (length t))).
  - rewrite Z.min_l by lia. f_equal; [lia | f_equal; lia].
  - rewrite Z.min_r by lia.
    rewrite !(drop_ge t) by lia. by rewrite !take_nil.
Qed.

Lemma project_last_maximum_spec (t : list Q) (last_maximum : Z) :
  0 <= last_maximum < Z.of_nat (length t) ->
  project_last_maximum_on_curve t last_maximum
  = Ok (Z.of_nat <$> Spec.projection t (Z.to_nat last_maximum)).
Proof.
  intros H. unfold project_last_maximum_on_curve.
  destruct (lookup_lt_is_Some_2 t (Z.to_nat last_maximum)) as [limit Hl]; [lia|].
  rewrite (index_nonneg _ _ _ (proj1 H) Hl). simpl. f_equal.
  unfold Spec.projection, Spec.first_above.
  rewrite (nth_lookup_Some _ _ _ _ Hl).
  rewrite projection_window by lia. unfold Py.enumerate.
  set (a := (Z.to_nat last_maximum + 10)%nat).
  set (n := (length t - 10 - a)%nat).
  assert (length (take n (drop a t)) = n) as ->.
  { rewrite length_take, length_drop. lia. }
  apply (find_window (fun point => Py.Qltb limit point)); lia.
Qed.

Lemma projection_bounds (t : list Q) (last_maximum j : nat) :
  Spec.projection t last_maximum = Some j ->
  (last_maximum + 10 <= j < length t - 10)%nat /\
  (nth last_maximum t 0 < nth j t 0)%Q.
Proof.
  unfold Spec.projection, Spec.first_above.
  intros [Hj Hlt]%find_some. apply in_seq in Hj. apply Qltb_lt in Hlt.
  split; [lia | done].
Qed.

Lemma projection_first (t : list Q) (last_maximum j i : nat) :
  Spec.projection t last_maximum = Some j ->
  (last_maximum + 10 <= i < j)%nat ->
  (nth i t 0 <= nth last_maximum t 0)%Q.
Proof.
  unfold Spec.projection, Spec.first_above.
  generalize (nth last_maximum t 0%Q) as limit.
  generalize (length t - 10 - (last_maximum + 10))%nat as n.
  generalize (last_maximum + 10)%nat as a.
  intros a n. revert a. induction n as [|n IH]; intros a limit; simpl; [done|].
  destruct (Py.Qltb limit (nth a t 0%Q)) eqn:E.
  - intros [= <-] ?. lia.
  - intros Hf Hi. destruct (Nat.eq_dec i a) as [->|?].
    + by apply Qltb_ge.
    + apply (IH (S a) limit Hf). lia.
Qed.

Lemma projection_none (t : list Q) (last_maximum i : nat) :
  Spec.projection t last_maximum = None ->
  (last_maximum + 10 <= i < length t - 10)%nat ->
  (nth i t 0 <= nth last_maximum t 0)%Q.
Proof.
  unfold Spec.projection, Spec.first_above. intros Hf Hi.
  apply Qltb_ge. apply (find_none _ _ Hf). apply in_seq. lia.
Qed.

Lemma project_last_maximum_out_of_range (t : list Q) (last_maximum : Z) :
  Z.of_nat (length t) <= last_maximum ->
  project_last_maximum_on_curve t last_maximum = Raise IndexError.
Proof.
  intros H. unfold project_last_maximum_on_curve.
  by rewrite index_out_of_range.
Qed.

Lemma average_ends_spec (projection : option nat) (end_mcv_domain : Z) :
  (forall j, projection = Some j -> (0 < j)%nat) ->
  average_ends (Z.of_nat <$> projection) end_mcv_domain
  = match projection with
    | Some j => Z.of_nat j
    | None => end_mcv_domain
    end.
Proof.
  intros H. destruct projection as [j|]; [|done].
  specialize (H j eq_refl). unfold average_ends. simpl.
  destruct (Z.eqb_spec (Z.of_nat j) 0); [lia | done].
Qed.

(** C10: for a last maximum at a position of the trace that is at least 1,
    [project_last_maximum_on_curve] returns either no index or an index that
    is at least [last_maximum + 10], hence not 0; so the choice made in
    [get_mcv] on the truth value of the projection takes the domain end
    exactly when there is no projection. *)
Theorem projection_never_misread (t : list Q)
    (last_maximum end_mcv_domain : Z) :
  1 <= last_maximum < Z.of_nat (length t) ->
  exists projection,
    project_last_maximum_on_curve t last_maximum = Ok projection /\
    match projection with
    | None => average_ends projection end_mcv_domain = end_mcv_domain
    | Some index =>
        last_maximum + 10 <= index /\ index <> 0 /\
        average_ends projection end_mcv_domain = index
    end.
Proof.
  intros H. eexists. split; [apply project_last_maximum_spec; lia|].
  destruct (Spec.projection t (Z.to_nat last_maximum)) as [j|] eqn:E; [|done].
  apply projection_bounds in E as [Hj _]. simpl.
  repeat split; [lia | lia |].
  unfold average_ends. simpl.
  destruct (Z.eqb_spec (Z.of_nat j) 0); [lia | done].
Qed.

Lemma projection_never_misread_witness :
  exists projection,
    project_last_maximum_on_curve peak_profile 14 = Ok projection /\
    match projection with
    | None => average_ends projection 40 = 40
    | Some index => 14 + 10 <= index /\ index <> 0 /\
                    average_ends projection 40 = index
    end.
Proof.
  apply (projection_never_misread peak_profile 14 40).
  vm_compute. split; [discriminate | reflexivity].
Defined.

(** ** The mean crank voltage *)

Lemma bind_Ok {A B : Type} (r : result A) (k : A -> result B) (b : B) :
  r ≫= k = Ok b -> exists a, r = Ok a /\ k a = Ok b.
Proof. destruct r as [a|e]; [eauto | done]. Qed.

Lemma index_minus_1 {A : Type} (l : list A) (x : A) :
  last l = Some x -> Py.index l (-1) = Ok x.
Proof. intros [l' ->]%last_Some. apply index_last. Qed.

Lemma argmin_range (t : list Q) (min_index : Z) :
  Np.argmin t = Ok min_index -> 0 <= min_index < Z.of_nat (length t).
Proof.
  intros [H0 H]%argmin_sound. apply first_minimum_lt in H. lia.
Qed.

Lemma get_mcv_spec (t : list Q) (min_index domain_end : Z)
    (local_maxima : list Z) :
  0 <= min_index ->
  get_end_of_mcv_domain t = Ok domain_end ->
  get_local_maxima (Py.slice t (Some min_index) (Some domain_end)) min_index
  = Ok local_maxima ->
  get_mcv t min_index
  = Ok (Np.round
          (Np.mean (Py.slice t (Some min_index)
                      (Some (Spec.upper_bound t local_maxima domain_end)))) 2).
Proof.
  intros Hmin Hend Hlm. unfold get_mcv. rewrite Hend. simpl. rewrite Hlm. simpl.
  destruct (get_local_maxima_ok
              (Py.slice t (Some min_index) (Some domain_end)) min_index)
    as (lm' & Hlm' & Hrange).
  rewrite Hlm in Hlm'. injection Hlm' as <-.
  unfold Spec.upper_bound.
  destruct (last local_maxima) as [last_maximum|] eqn:Hlast.
  - destruct local_maxima as [|a rest]; [done|].
    rewrite (index_minus_1 _ _ Hlast). simpl.
    pose proof (slice_length_le t min_index (Some domain_end) Hmin) as Hlen.
    assert (min_index < last_maximum /\
            last_maximum + 11 < min_index
              + Z.of_nat (length (Py.slice t (Some min_index) (Some domain_end))))
      as [Hlo Hhi].
    { apply last_Some in Hlast as [l' Hl']. rewrite Hl' in Hrange.
      by apply Forall_app in Hrange as [_ [? _]%Forall_cons]. }
    rewrite project_last_maximum_spec by lia. simpl.
    rewrite average_ends_spec; [done|].
    intros j [Hj _]%projection_bounds. lia.
  - apply last_None in Hlast. by subst.
Qed.

Lemma max_ok (l : list Q) : l <> [] -> exists x, Py.max l = Ok x.
Proof. destruct l; [done | simpl; eauto]. Qed.

Lemma min_ok (l : list Q) : l <> [] -> exists x, Py.min l = Ok x.
Proof. destruct l; [done | simpl; eauto]. Qed.

Lemma get_iv_ok (t : list Q) (min_index : Z) :
  0 <= min_index -> t <> [] -> exists iv, get_iv t min_index = Ok iv.
Proof.
  intros Hmin Hne. unfold get_iv. apply max_ok.
  rewrite slice_upto by lia.
  replace (Z.to_nat (min_index + 1)) with (S (Z.to_nat min_index)) by lia.
  by destruct t.
Qed.

(** The variance enters [get_end_of_mcv_domain] through comparisons only,
    so that the domain end does not depend on how its fractions are
    written. *)
Lemma reduced_sum (l l' : list Q) :
  Forall2 Qeq l l' -> (Reduced.sum l == Np.sum l')%Q.
Proof.
  induction 1 as [|x y l l' Hxy _ IH]; simpl; [reflexivity|].
  by rewrite Qred_correct, IH, Hxy.
Qed.

Lemma reduced_mean (l l' : list Q) :
  Forall2 Qeq l l' -> option_Forall2 Qeq (Reduced.mean l) (Np.mean l').
Proof.
  intros H. pose proof (reduced_sum _ _ H) as Hsum.
  pose proof (Forall2_length _ _ _ H) as Hlen.
  destruct H as [|x y l l' Hxy H]; [constructor|].
  unfold Reduced.mean, Np.mean. constructor.
  by rewrite Qred_correct, Hsum, Hlen.
Qed.

Lemma reduced_var (l : list Q) :
  option_Forall2 Qeq (Reduced.var l) (Np.var l).
Proof.
  unfold Reduced.var, Np.var.
  destruct (reduced_mean l l) as [m m' Hm|];
    [by apply Forall_Forall2_diag, Forall_true | |constructor].
  apply reduced_mean.
  apply Forall2_fmap, Forall_Forall2_diag, Forall_true. intros x. simpl.
  by rewrite Qred_correct, Hm.
Qed.

Lemma gt_times_std_var (point k : Q) (v v' : option Q) :
  option_Forall2 Qeq v v' ->
  Np.gt_times_std point k v = Np.gt_times_std point k v'.
Proof.
  intros [x y Hxy|]; [|done]. unfold Np.gt_times_std, Py.Qltb.
  by rewrite Hxy.
Qed.

Lemma get_end_of_mcv_domain_reduced (t : list Q) :
  get_end_of_mcv_domain t = Reduced.get_end_of_mcv_domain t.
Proof.
  unfold get_end_of_mcv_domain, Reduced.get_end_of_mcv_domain.
  destruct (Np.argmin t) as [argmin|]; [simpl|done].
  f_equal. apply list_omap_ext, Forall_Forall2_diag, Forall_true.
  intros [index point].
  by rewrite (gt_times_std_var _ _ _ _ (reduced_var _)).
Qed.

Lemma extract_features_ok (c : crank) (smoothed_trace : list Q)
    (min_index domain_end : Z) :
  get_smoothed_trace c 5 = Ok smoothed_trace ->
  Np.argmin smoothed_trace = Ok min_index ->
  get_end_of_mcv_domain smoothed_trace = Ok domain_end ->
  exists features, extract_features c = Ok features.
Proof.
  intros Hst Hmin Hend.
  pose proof (argmin_range _ _ Hmin) as Hrange.
  assert (smoothed_trace <> []) as Hne.
  { intros ->. simpl in Hrange. lia. }
  destruct (get_local_maxima_ok
              (Py.slice smoothed_trace (Some min_index) (Some domain_end))
              min_index) as (local_maxima & Hlm & _).
  destruct (get_iv_ok smoothed_trace min_index (proj1 Hrange) Hne) as [iv Hiv].
  destruct (min_ok smoothed_trace Hne) as [lvv Hlvv].
  eexists.
  unfold extract_features. rewrite Hst. simpl. rewrite Hmin. simpl.
  rewrite Hiv. simpl.
  rewrite (get_mcv_spec _ _ _ _ (proj1 Hrange) Hend Hlm). simpl.
  unfold get_lvv. rewrite Hlvv. simpl. reflexivity.
Qed.

(** C1: when the domain-end detection succeeds the extraction succeeds, and
    [mcv] is the mean of [smoothed_trace[min_index:upper_bound]] rounded to
    two decimals, where the upper bound is the domain end when no local
    maximum is accepted and otherwise the projection of the last maximum,
    the domain end standing in for a missing projection. *)
Theorem mcv_is_rounded_mean (c : crank) (smoothed_trace : list Q)
    (min_index domain_end : Z) :
  get_smoothed_trace c 5 = Ok smoothed_trace ->
  Np.argmin smoothed_trace = Ok min_index ->
  get_end_of_mcv_domain smoothed_trace = Ok domain_end ->
  exists local_maxima features,
    get_local_maxima
      (Py.slice smoothed_trace (Some min_index) (Some domain_end)) min_index
    = Ok local_maxima /\
    extract_features c = Ok features /\
    features !! "mcv"
    = Some (of_float
              (Np.round
                 (Np.mean
                    (Py.slice smoothed_trace (Some min_index)
                       (Some (Spec.upper_bound smoothed_trace local_maxima
                                domain_end)))) 2)).
Proof.
  intros Hst Hmin Hend.
  pose proof (argmin_range _ _ Hmin) as Hrange.
  assert (smoothed_trace <> []) as Hne.
  { intros ->. simpl in Hrange. lia. }
  destruct (get_local_maxima_ok
              (Py.slice smoothed_trace (Some min_index) (Some domain_end))
              min_index) as (local_maxima & Hlm & _).
  destruct (get_iv_ok smoothed_trace min_index (proj1 Hrange) Hne) as [iv Hiv].
  destruct (min_ok smoothed_trace Hne) as [lvv Hlvv].
  exists local_maxima. eexists. split; [done|].
  unfold extract_features. rewrite Hst. simpl. rewrite Hmin. simpl.
  rewrite Hiv. simpl.
  rewrite (get_mcv_spec _ _ _ _ (proj1 Hrange) Hend Hlm). simpl.
  unfold get_lvv. rewrite Hlvv. simpl.
  split; [reflexivity|]. by simplify_map_eq.
Qed.

Lemma mcv_is_rounded_mean_witness :
  exists smoothed_trace min_index domain_end,
    get_smoothed_trace (Crank peak_profile "2018-11-26T07:36") 5
    = Ok smoothed_trace /\
    Np.argmin smoothed_trace = Ok min_index /\
    get_end_of_mcv_domain smoothed_trace = Ok domain_end /\
    exists local_maxima features,
      get_local_maxima
        (Py.slice smoothed_trace (Some min_index) (Some domain_end)) min_index
      = Ok local_maxima /\
      extract_features (Crank peak_profile "2018-11-26T07:36") = Ok features /\
      features !! "mcv"
      = Some (of_float
                (Np.round
                   (Np.mean
                      (Py.slice smoothed_trace (Some min_index)
                         (Some (Spec.upper_bound smoothed_trace local_maxima
                                  domain_end)))) 2)).
Proof.
  eexists _, 3, 34.
  split; [vm_compute; reflexivity|].
  split; [vm_compute; reflexivity|].
  match goal with
  | |- ?G /\ _ =>
      assert G as Hend
        by (rewrite get_end_of_mcv_domain_reduced; vm_compute; reflexivity)
  end.
  split; [exact Hend|].
  apply (mcv_is_rounded_mean (Crank peak_profile "2018-11-26T07:36"));
    [vm_compute; reflexivity | vm_compute; reflexivity | exact Hend].
Defined.

(** ** Initial voltage, low valley voltage and the feature record *)

Lemma fold_max_spec (r : list Q) (x : Q) :
  let m := fold_left (fun best y => if Py.Qltb best y then y else best) r x in
  m ∈ x :: r /\ Forall (fun y => (y <= m)%Q) (x :: r).
Proof.
  revert x. induction r as [|y r IH]; intros x; simpl.
  - split; [left | constructor; [lra | constructor]].
  - destruct (IH (if Py.Qltb x y then y else x)) as [Hin Hle].
    apply Forall_cons in Hle as [Hbest Hle].
    split.
    + apply elem_of_cons in Hin as [->|Hin].
      * destruct (Py.Qltb x y); [right; left | left].
      * right. by right.
    + destruct (Py.Qltb x y) eqn:E.
      * apply Qltb_lt in E. repeat constructor; [lra | done | done].
      * apply Qltb_ge in E. repeat constructor; [done | lra | done].
Qed.

Lemma fold_min_spec (r : list Q) (x : Q) :
  let m := fold_left (fun best y => if Py.Qltb y best then y else best) r x in
  m ∈ x :: r /\ Forall (fun y => (m <= y)%Q) (x :: r).
Proof.
  revert x. induction r as [|y r IH]; intros x; simpl.
  - split; [left | constructor; [lra | constructor]].
  - destruct (IH (if Py.Qltb y x then y else x)) as [Hin Hle].
    apply Forall_cons in Hle as [Hbest Hle].
    split.
    + apply elem_of_cons in Hin as [->|Hin].
      * destruct (Py.Qltb y x); [right; left | left].
      * right. by right.
    + destruct (Py.Qltb y x) eqn:E.
      * apply Qltb_lt in E. repeat constructor; [lra | done | done].
      * apply Qltb_ge in E. repeat constructor; [done | lra | done].
Qed.

Lemma max_spec (l : list Q) (m : Q) :
  Py.max l = Ok m -> m ∈ l /\ Forall (fun y => (y <= m)%Q) l.
Proof. destruct l as [|x r]; [done|]. intros [= <-]. apply fold_max_spec. Qed.

Lemma min_spec (l : list Q) (m : Q) :
  Py.min l = Ok m -> m ∈ l /\ Forall (fun y => (m <= y)%Q) l.
Proof. destruct l as [|x r]; [done|]. intros [= <-]. apply fold_min_spec. Qed.

Lemma extract_features_inv (c : crank) (features : gmap string value) :
  extract_features c = Ok features ->
  exists smoothed_trace min_index iv mcv lvv,
    get_smoothed_trace c 5 = Ok smoothed_trace /\
    Np.argmin smoothed_trace = Ok min_index /\
    get_iv smoothed_trace min_index = Ok iv /\
    get_mcv smoothed_trace min_index = Ok mcv /\
    get_lvv smoothed_trace = Ok lvv /\
    features = <["iv" := Num iv]> (<["lvv" := Num lvv]>
                 (<["mcv" := of_float mcv]> (<["time" := Str (time c)]> ∅))).
Proof.
  unfold extract_features.
  intros (smoothed_trace & Hst & H)%bind_Ok.
  apply bind_Ok in H as (min_index & Hmin & H).
  apply bind_Ok in H as (iv & Hiv & H).
  apply bind_Ok in H as (mcv & Hmcv & H).
  apply bind_Ok in H as (lvv & Hlvv & H).
  injection H as <-. by exists smoothed_trace, min_index, iv, mcv, lvv.
Qed.

(** C7: when the extraction succeeds, [iv] is the greatest value of the
    smoothed trace over the positions 0 to [min_index] inclusive and [lvv] is
    the least value of the whole smoothed trace. *)
Theorem iv_and_lvv_are_extremes (c : crank) (features : gmap string value) :
  extract_features c = Ok features ->
  exists smoothed_trace min_index iv lvv,
    get_smoothed_trace c 5 = Ok smoothed_trace /\
    Np.argmin smoothed_trace = Ok min_index /\
    features !! "iv" = Some (Num iv) /\
    features !! "lvv" = Some (Num lvv) /\
    iv ∈ take (S (Z.to_nat min_index)) smoothed_trace /\
    Forall (fun x => (x <= iv)%Q) (take (S (Z.to_nat min_index)) smoothed_trace) /\
    lvv ∈ smoothed_trace /\
    Forall (fun x => (lvv <= x)%Q) smoothed_trace.
Proof.
  intros (st & min_index & iv & mcv & lvv & Hst & Hmin & Hiv & _ & Hlvv & ->)
    %extract_features_inv.
  exists st, min_index, iv, lvv.
  pose proof (argmin_range _ _ Hmin) as Hrange.
  unfold get_iv in Hiv. rewrite slice_upto in Hiv by lia.
  replace (Z.to_nat (min_index + 1)) with (S (Z.to_nat min_index)) in Hiv by lia.
  apply max_spec in Hiv as [? ?]. apply min_spec in Hlvv as [? ?].
  repeat split; try done; by simplify_map_eq.
Qed.

Lemma iv_and_lvv_are_extremes_witness :
  exists features,
    extract_features (Crank peak_profile "2018-11-26T07:36") = Ok features /\
    exists smoothed_trace min_index iv lvv,
      get_smoothed_trace (Crank peak_profile "2018-11-26T07:36") 5
      = Ok smoothed_trace /\
      Np.argmin smoothed_trace = Ok min_index /\
      features !! "iv" = Some (Num iv) /\
      features !! "lvv" = Some (Num lvv) /\
      iv ∈ take (S (Z.to_nat min_index)) smoothed_trace /\
      Forall (fun x => (x <= iv)%Q)
        (take (S (Z.to_nat min_index)) smoothed_trace) /\
      lvv ∈ smoothed_trace /\
      Forall (fun x => (lvv <= x)%Q) smoothed_trace.
Proof.
  edestruct extract_features_ok
    with (c := Crank peak_profile "2018-11-26T07:36")
         (min_index := 3) (domain_end := 34)
    as [features Hf];
    [ vm_compute; reflexivity | vm_compute; reflexivity
    | rewrite get_end_of_mcv_domain_reduced; vm_compute; reflexivity | ].
  exists features. split; [exact Hf|].
  exact (iv_and_lvv_are_extremes _ _ Hf).
Defined.

(** C8: when the extraction succeeds, the feature record has exactly the
    keys [iv], [lvv], [mcv] and [time], and its [time] entry is the [time]
    of the crank. *)
Theorem feature_record_keys_and_time (c : crank)
    (features : gmap string value) :
  extract_features c = Ok features ->
  dom features = {[ "iv"; "lvv"; "mcv"; "time" ]} /\
  features !! "time" = Some (Str (time c)).
Proof.
  intros (st & min_index & iv & mcv & lvv & _ & _ & _ & _ & _ & ->)
    %extract_features_inv.
  split; [|by simplify_map_eq].
  rewrite !dom_insert_L, dom_empty_L. set_solver.
Qed.

Lemma feature_record_keys_and_time_witness :
  exists features,
    extract_features (Crank peak_profile "2018-11-26T07:36") = Ok features /\
    dom features = {[ "iv"; "lvv"; "mcv"; "time" ]} /\
    features !! "time" = Some (Str "2018-11-26T07:36").
Proof.
  edestruct extract_features_ok
    with (c := Crank peak_profile "2018-11-26T07:36")
         (min_index := 3) (domain_end := 34)
    as [features Hf];
    [ vm_compute; reflexivity | vm_compute; reflexivity
    | rewrite get_end_of_mcv_domain_reduced; vm_compute; reflexivity | ].
  exists features. split; [exact Hf|].
  exact (feature_record_keys_and_time _ _ Hf).
Defined.

(** ** The end of the averaging domain *)

Lemma omap_all_None {A B : Type} (f : A -> option B) (l : list A) :
  Forall (fun x => f x = None) l -> omap f l = [].
Proof. induction 1 as [|x l Hx _ IH]; simpl; [done|]. by rewrite Hx. Qed.

Lemma smoothed_trace_nonempty (c : crank) (smoothed_trace : list Q) :
  get_smoothed_trace c 5 = Ok smoothed_trace -> smoothed_trace <> [].
Proof.
  unfold get_smoothed_trace.
  intros (index_min & Hmin & H)%bind_Ok. injection H as <-.
  destruct (argmin_sound _ _ Hmin) as [Hmin0 (before & m & after & Hp & _)].
  rewrite slice_upto by lia.
  replace (Z.to_nat (index_min + 1)) with (S (Z.to_nat index_min)) by lia.
  rewrite Hp. by destruct before.
Qed.

Lemma no_surge_no_end (t : list Q) :
  t <> [] -> Spec.no_surge t -> get_end_of_mcv_domain t = Raise IndexError.
Proof.
  intros Hne Hflat. destruct (argmin_nonempty t Hne) as [argmin Hmin].
  specialize (Hflat argmin Hmin). simpl in Hflat.
  unfold get_end_of_mcv_domain. rewrite Hmin. simpl.
  rewrite omap_all_None; [apply index_empty|].
  apply Forall_forall. intros [index point] Hin.
  apply elem_of_zip_r in Hin.
  rewrite Forall_forall in Hflat. by rewrite (Hflat point Hin).
Qed.

(** C2: when no point of the scaled difference of
    [smoothed_trace[argmin:-30]] exceeds 2.5 times the standard deviation of
    that difference, [get_end_of_mcv_domain] raises the out-of-range error
    and so does [extract_features]: no feature record is returned. *)
Theorem no_surge_discards_crank (c : crank) (smoothed_trace : list Q) :
  get_smoothed_trace c 5 = Ok smoothed_trace ->
  Spec.no_surge smoothed_trace ->
  get_end_of_mcv_domain smoothed_trace = Raise IndexError /\
  extract_features c = Raise IndexError.
Proof.
  intros Hst Hflat.
  pose proof (smoothed_trace_nonempty _ _ Hst) as Hne.
  pose proof (no_surge_no_end _ Hne Hflat) as Hend.
  split; [done|].
  destruct (argmin_nonempty _ Hne) as [min_index Hmin].
  destruct (get_iv_ok smoothed_trace min_index
              (proj1 (argmin_range _ _ Hmin)) Hne) as [iv Hiv].
  unfold extract_features. rewrite Hst. simpl. rewrite Hmin. simpl.
  rewrite Hiv. simpl. unfold get_mcv. by rewrite Hend.
Qed.

Lemma no_surge_discards_crank_witness :
  exists smoothed_trace,
    get_smoothed_trace (Crank flat_profile "2018-11-26T07:36") 5
    = Ok smoothed_trace /\
    Spec.no_surge smoothed_trace /\
    get_end_of_mcv_domain smoothed_trace = Raise IndexError /\
    extract_features (Crank flat_profile "2018-11-26T07:36")
    = Raise IndexError.
Proof.
  eexists. split; [vm_compute; reflexivity|].
  match goal with
  | |- Spec.no_surge ?t /\ _ =>
      assert (Spec.no_surge t) as Hflat
  end.
  { intros argmin Hmin. vm_compute in Hmin. injection Hmin as <-.
    vm_compute. repeat constructor. }
  split; [exact Hflat|].
  apply (no_surge_discards_crank (Crank flat_profile "2018-11-26T07:36"));
    [vm_compute; reflexivity | exact Hflat].
Defined.

(** C3: on the profile of the round-trip scenario, whatever the timestamp,
    [smoothed_trace[3:-30]] is empty, [get_end_of_mcv_domain] raises the
    out-of-range error and [extract_features] returns no record; on the
    smoothed trace of that profile [get_iv] yields 10 and [get_lvv] yields
    2. *)
Theorem scenario_is_discarded (timestamp : string) :
  exists smoothed_trace,
    get_smoothed_trace (Crank scenario_profile timestamp) 5
    = Ok smoothed_trace /\
    Np.argmin smoothed_trace = Ok 3 /\
    get_iv smoothed_trace 3 = Ok 10%Q /\
    get_lvv smoothed_trace = Ok 2%Q /\
    Py.slice smoothed_trace (Some 3) (Some (-30)) = [] /\
    get_end_of_mcv_domain smoothed_trace = Raise IndexError /\
    extract_features (Crank scenario_profile timestamp) = Raise IndexError.
Proof.
  eexists. split; [vm_compute; reflexivity|].
  vm_compute. repeat split.
Qed.

Lemma scenario_is_not_extracted :
  ~ exists features,
      extract_features (Crank scenario_profile "2018-11-26T07:36")
      = Ok features.
Proof. intros [features H]. vm_compute in H. discriminate. Qed.

(** ** The search-result converter *)

Lemma append_assoc (s1 s2 s3 : string) :
  (s1 +:+ s2) +:+ s3 = s1 +:+ s2 +:+ s3.
Proof.
  induction s1 as [|a s1 IH]; [done|].
  change (String a ((s1 +:+ s2) +:+ s3) = String a (s1 +:+ s2 +:+ s3)).
  by f_equal.
Qed.

Lemma append_empty_r (s : string) : s +:+ "" = s.
Proof.
  induction s as [|a s IH]; [done|].
  change (String a (s +:+ "") = String a s). by f_equal.
Qed.

Section converter_facts.

Context {V : Type} (str : V -> string).

Import CsvFromEs.

Lemma elem_of_sorted_keys (d : gmap string V) (k : string) :
  k ∈ sorted_keys d <-> is_Some (d !! k).
Proof.
  unfold sorted_keys.
  by rewrite merge_sort_Permutation, elem_of_elements, elem_of_dom.
Qed.

Lemma sorted_keys_sorted (d : gmap string V) :
  Sorted String.le (sorted_keys d).
Proof. apply Sorted_merge_sort, _. Qed.

Lemma sorted_keys_NoDup (d : gmap string V) : NoDup (sorted_keys d).
Proof.
  unfold sorted_keys. rewrite merge_sort_Permutation. apply NoDup_elements.
Qed.

Lemma sorted_keys_same_fields (d1 d2 : gmap string V) :
  dom d1 = dom d2 -> sorted_keys d1 = sorted_keys d2.
Proof. unfold sorted_keys. by intros ->. Qed.

Lemma write_header_join (headers : list string) (csvfile : string) :
  write_header headers csvfile = csvfile +:+ join headers.
Proof.
  unfold write_header. revert csvfile.
  induction headers as [|h headers IH]; intros csvfile; simpl.
  - by rewrite append_empty_r.
  - by rewrite IH, !append_assoc.
Qed.

Lemma write_cells_join (d : gmap string V) (keys : list string)
    (csvfile missing : string) :
  Forall (fun k => is_Some (d !! k)) keys ->
  write_cells str d keys csvfile
  = (csvfile +:+ join (values_at str missing keys d), Ok tt).
Proof.
  intros H. revert csvfile.
  induction H as [|k keys [v Hv] _ IH]; intros csvfile; simpl.
  - by rewrite append_empty_r.
  - by rewrite Hv, IH, !append_assoc.
Qed.

Lemma write_lines_rows (lines : list hit) (csvfile missing : string) :
  write_lines str lines csvfile
  = (csvfile +:+
     fold_right String.append ""
       (map (fun line =>
               row (values_at str missing (sorted_keys (source line))
                      (source line))) lines),
     Ok tt).
Proof.
  revert csvfile. induction lines as [|line lines IH]; intros csvfile; simpl.
  - by rewrite append_empty_r.
  - rewrite (write_cells_join _ _ _ missing)
      by (apply Forall_forall; intros k; apply elem_of_sorted_keys).
    rewrite IH. unfold row. by rewrite !append_assoc.
Qed.

(** C9: for a document with at least one result the converter writes a
    header row of the sorted field names of the first result, then one
    line per result with that result's values in the order of its own
    sorted field names, every cell followed by a comma; a result with the
    field names of the first result is written in the order of the
    header. *)
Theorem converter_writes_own_order_table (data : document) (first : hit)
    (rest : list hit) :
  hits data = first :: rest ->
  convert str data = (own_order_table str first data, Ok tt) /\
  Sorted String.le (sorted_keys (source first)) /\
  (forall k, k ∈ sorted_keys (source first)
             <-> is_Some (source first !! k)) /\
  (forall line, line ∈ hits data ->
     dom (source line) = dom (source first) ->
     sorted_keys (source line) = sorted_keys (source first)).
Proof.
  intros Hhits. repeat split.
  - unfold convert, own_order_table, table. rewrite Hhits.
    rewrite (index_nonneg (first :: rest) 0 first) by done.
    rewrite write_header_join, (write_lines_rows _ _ "").
    unfold row. simpl. by rewrite !append_assoc.
  - apply sorted_keys_sorted.
  - apply elem_of_sorted_keys.
  - apply elem_of_sorted_keys.
  - intros line _. apply sorted_keys_same_fields.
Qed.

End converter_facts.

Lemma converter_writes_own_order_table_witness :
  uneven_document.(CsvFromEs.hits)
  = [CsvFromEs.Hit {[ "a" := "1" ]};
     CsvFromEs.Hit (<["a" := "2"]> {[ "b" := "3" ]})] /\
  let first := CsvFromEs.Hit {[ "a" := "1" ]} in
  CsvFromEs.convert id uneven_document
  = (CsvFromEs.own_order_table id first uneven_document, Ok tt) /\
  Sorted String.le (CsvFromEs.sorted_keys (CsvFromEs.source first)) /\
  (forall k, k ∈ CsvFromEs.sorted_keys (CsvFromEs.source first)
             <-> is_Some (CsvFromEs.source first !! k)) /\
  (forall line, line ∈ CsvFromEs.hits uneven_document ->
     dom (CsvFromEs.source line) = dom (CsvFromEs.source first) ->
     CsvFromEs.sorted_keys (CsvFromEs.source line)
     = CsvFromEs.sorted_keys (CsvFromEs.source first)).
Proof.
  split; [reflexivity|].
  apply (converter_writes_own_order_table id uneven_document
           (CsvFromEs.Hit {[ "a" := "1" ]})
           [CsvFromEs.Hit (<["a" := "2"]> {[ "b" := "3" ]})]).
  reflexivity.
Defined.

Lemma converter_rows_do_not_follow_header :
  CsvFromEs.convert id uneven_document
  <> (CsvFromEs.header_order_table id (CsvFromEs.Hit {[ "a" := "1" ]})
        uneven_document, Ok tt).
Proof. vm_compute. discriminate. Qed.

Example converter_on_no_result :
  CsvFromEs.convert (V := string) id (CsvFromEs.Document [])
  = ("", Raise IndexError).
Proof. reflexivity. Qed.

Example converter_on_even_document :
  CsvFromEs.convert id even_document
  = (CsvFromEs.header_order_table id
       (CsvFromEs.Hit (<["b" := "2"]> {[ "a" := "1" ]})) even_document,
     Ok tt).
Proof. vm_compute. reflexivity. Qed.

(** ** A peak accepted on a subscript that wrapped around *)

(** C4: on the spike profile the domain handed to [get_local_maxima] is
    [smoothed_trace[0:25]]; the peak at position 1 is accepted although no
    sample lies 10 positions before it: the subscript [1 - 10] is negative
    and reads the sample at position 16, after the peak. *)
Theorem peak_accepted_on_wrapped_subscript (timestamp : string) :
  exists smoothed_trace domain,
    get_smoothed_trace (Crank spike_profile timestamp) 5 = Ok smoothed_trace /\
    Np.argmin smoothed_trace = Ok 0 /\
    get_end_of_mcv_domain smoothed_trace = Ok 25 /\
    domain = Py.slice smoothed_trace (Some 0) (Some 25) /\
    get_local_maxima domain 0 = Ok [1] /\
    1 - 10 < 0 /\
    Py.index domain (1 - 10) = Py.index domain 16.
Proof.
  eexists _, _. split; [vm_compute; reflexivity|].
  split; [vm_compute; reflexivity|].
  split; [rewrite get_end_of_mcv_domain_reduced; vm_compute; reflexivity|].
  split; [reflexivity|].
  split; [vm_compute; reflexivity|].
  split; [lia | vm_compute; reflexivity].
Qed.

Example early_peak_accepted :
  get_local_maxima early_peak 0 = Ok [1] /\
  Py.index early_peak (1 - 10) = Py.index early_peak 4.
Proof. split; vm_compute; reflexivity. Qed.

(** * Further properties *)

Lemma StronglySorted_filter {A : Type} (R : relation A) (P : A -> Prop)
    `{!forall x, Decision (P x)} (l : list A) :
  StronglySorted R l -> StronglySorted R (filter P l).
Proof.
  induction 1 as [|x l _ IH Hx]; [constructor|].
  rewrite filter_cons. destruct (decide (P x)); [|done].
  constructor; [done|].
  apply Forall_forall. intros y [_ Hy]%list_elem_of_filter.
  rewrite Forall_forall in Hx. by apply Hx.
Qed.

Lemma argrelextrema_sorted (d : list Q) :
  StronglySorted Z.lt (Np.argrelextrema_greater d).
Proof.
  unfold Np.argrelextrema_greater. apply StronglySorted_filter.
  generalize 0%nat. induction (length d) as [|n IH]; intros k; simpl.
  - constructor.
  - constructor; [apply IH|].
    apply Forall_forall. intros x (j & -> & Hj%elem_of_seq)%list_elem_of_fmap. lia.
Qed.

Lemma argrelextrema_peak (d : list Q) (p : Z) :
  p ∈ Np.argrelextrema_greater d ->
  exists l x r,
    d !! Z.to_nat (p - 1) = Some l /\ d !! Z.to_nat p = Some x /\
    d !! Z.to_nat (p + 1) = Some r /\ (l < x)%Q /\ (r < x)%Q.
Proof.
  intros Hp. pose proof (argrelextrema_interior d p Hp) as Hint.
  unfold Np.argrelextrema_greater in Hp.
  apply list_elem_of_filter in Hp as [H _].
  apply Is_true_true, andb_true_iff in H as [Hnext Hprev].
  apply Qltb_lt in Hnext, Hprev. unfold Np.take_clip in Hnext, Hprev.
  rewrite !Z.max_l, !Z.min_l in Hnext, Hprev by lia.
  destruct (lookup_lt_is_Some_2 d (Z.to_nat (p - 1))) as [l Hl]; [lia|].
  destruct (lookup_lt_is_Some_2 d (Z.to_nat p)) as [x Hx]; [lia|].
  destruct (lookup_lt_is_Some_2 d (Z.to_nat (p + 1))) as [r Hr]; [lia|].
  rewrite (nth_lookup_Some _ _ _ _ Hl), (nth_lookup_Some _ _ _ _ Hx) in Hprev.
  rewrite (nth_lookup_Some _ _ _ _ Hr), (nth_lookup_Some _ _ _ _ Hx) in Hnext.
  by exists l, x, r.
Qed.

Lemma local_maxima_loop_spec (t : list Q) (min_index : Z) (peaks acc : list Z)
    (previous : option Z) :
  Forall (Spec.testable t) peaks ->
  StronglySorted Z.lt peaks ->
  (forall q, previous = Some q -> 0 < q /\ Forall (fun p => q < p) peaks) ->
  exists selected,
    local_maxima_loop t min_index peaks acc previous
    = Ok (acc ++ map (fun p => p + min_index) selected) /\
    selected ⊆ peaks /\
    Forall (fun p => high_and_convex t p = Ok true) selected /\
    StronglySorted (fun a b => a + 10 <= b) selected /\
    (forall q, previous = Some q -> Forall (fun p => q + 10 <= p) selected) /\
    (forall p, p ∈ peaks -> high_and_convex t p = Ok true ->
       p ∈ selected \/
       (exists q, q ∈ selected /\ q < p < q + 10) \/
       (exists q, previous = Some q /\ p < q + 10)).
Proof.
  intros Htest. revert acc previous.
  induction Htest as [|peak peaks Hpeak _ IH]; intros acc previous Hsorted Hprev.
  { exists []. simpl. rewrite app_nil_r.
    repeat split; try done; by constructor. }
  apply StronglySorted_inv in Hsorted as [Hsorted Hlater].
  assert (forall q, previous = Some q -> 0 < q /\ Forall (fun p => q < p) peaks)
    as Hprev'.
  { intros q Hq. destruct (Hprev q Hq) as [? [_ ?]%Forall_cons]. done. }
  set (outcome := fun (r : result (list Z)) =>
    exists selected,
      r = Ok (acc ++ map (fun p => p + min_index) selected) /\
      selected ⊆ peak :: peaks /\
      Forall (fun p => high_and_convex t p = Ok true) selected /\
      StronglySorted (fun a b => a + 10 <= b) selected /\
      (forall q, previous = Some q -> Forall (fun p => q + 10 <= p) selected) /\
      (forall p, p ∈ peak :: peaks -> high_and_convex t p = Ok true ->
         p ∈ selected \/
         (exists q, q ∈ selected /\ q < p < q + 10) \/
         (exists q, previous = Some q /\ p < q + 10))).
  (* the iteration accepts [peak] *)
  assert (high_and_convex t peak = Ok true ->
          (forall q, previous = Some q -> q + 10 <= peak) ->
          outcome (local_maxima_loop t min_index peaks
                     (acc ++ [peak + min_index]) (Some peak))) as Htake.
  { intros Hok Hgap.
    destruct (IH (acc ++ [peak + min_index]) (Some peak) Hsorted)
      as (selected & -> & Hsub & Hall & Hspaced & Hfar & Hkept).
    { intros q [= <-]. split; [apply Hpeak | done]. }
    exists (peak :: selected). rewrite <- app_assoc. split; [done|].
    split; [intros x [->|Hx]%elem_of_cons; [left | right; by apply Hsub]|].
    split; [by constructor|].
    split; [constructor; [done | by apply Hfar]|].
    split.
    - intros q Hq. specialize (Hgap q Hq). constructor; [done|].
      eapply Forall_impl; [by apply Hfar|]. simpl. lia.
    - intros p [->|Hp]%elem_of_cons Hp'; [left; left|].
      rewrite Forall_forall in Hlater. pose proof (Hlater p Hp) as Hlt.
      destruct (Hkept p Hp Hp') as [?|[(q & Hq & ?)|(q & [= <-] & ?)]].
      + left. by right.
      + right. left. exists q. split; [by right | done].
      + right. left. exists peak. split; [left | lia]. }
  (* the iteration leaves [peak] out *)
  assert ((high_and_convex t peak = Ok true ->
           exists q, previous = Some q /\ peak < q + 10) ->
          outcome (local_maxima_loop t min_index peaks acc previous)) as Hskip.
  { intros Hwhy.
    destruct (IH acc previous Hsorted Hprev')
      as (selected & -> & Hsub & Hall & Hspaced & Hfar & Hkept).
    exists selected. repeat split; try done.
    - intros x Hx. right. by apply Hsub.
    - intros p [->|Hp]%elem_of_cons Hp'; [right; right; by apply Hwhy|].
      by apply Hkept. }
  destruct (high_and_convex_total t peak Hpeak) as [ok Hok].
  simpl. destruct previous as [q|]; simpl.
  - destruct (Hprev q eq_refl) as [Hq [Hlt _]%Forall_cons].
    destruct (Z.eqb_spec q 0) as [?|_]; [lia|]. simpl.
    destruct (Z.leb_spec 10 (Z.abs (peak - q))) as [Hfar|Hnear].
    + rewrite Hok. simpl. destruct ok.
      * apply Htake; [done|]. intros ? [= <-]. lia.
      * apply Hskip. by rewrite Hok.
    + apply Hskip. intros _. exists q. split; [done | lia].
  - rewrite Hok. simpl. destruct ok.
    + apply Htake; [done|]. intros ? [=].
    + apply Hskip. by rewrite Hok.
Qed.

Lemma get_local_maxima_spec (t : list Q) (min_index : Z) :
  exists selected,
    get_local_maxima t min_index = Ok (map (fun p => p + min_index) selected) /\
    selected ⊆ Np.argrelextrema_greater (Py.slice t None (Some (-10))) /\
    Forall (fun p => high_and_convex t p = Ok true) selected /\
    StronglySorted (fun a b => a + 10 <= b) selected /\
    (forall p, p ∈ Np.argrelextrema_greater (Py.slice t None (Some (-10))) ->
       high_and_convex t p = Ok true ->
       p ∈ selected \/ exists q, q ∈ selected /\ q < p < q + 10).
Proof.
  unfold get_local_maxima.
  destruct (local_maxima_loop_spec t min_index _ [] None (peaks_testable t)
              (argrelextrema_sorted _))
    as (selected & -> & Hsub & Hall & Hspaced & _ & Hkept); [done|].
  exists selected. repeat split; try done.
  intros p Hp Hp'. destruct (Hkept p Hp Hp') as [?|[?|(q & [=] & _)]]; auto.
Qed.

Lemma index_Ok_inv {A : Type} (l : list A) (i : Z) (x : A) :
  Py.index l i = Ok x ->
  exists j, l !! j = Some x /\
    Z.of_nat j = if i <? 0 then i + Z.of_nat (length l) else i.
Proof.
  unfold Py.index.
  set (j := if i <? 0 then i + Z.of_nat (length l) else i).
  destruct (Z.ltb_spec j 0); [done|]. simpl.
  destruct (Z.leb_spec (Z.of_nat (length l)) j); [done|].
  destruct (l !! Z.to_nat j) as [y|] eqn:E; [|done].
  intros [= <-]. exists (Z.to_nat j). split; [done | lia].
Qed.

(** X1: [get_local_maxima] never raises; every index it returns lies strictly
    after the offset and at least twelve positions before the end of the
    trace, so a trace of twelve samples or fewer has no local maximum. *)
Theorem local_maxima_never_raise (t : list Q) (min_index : Z) :
  exists local_maxima,
    get_local_maxima t min_index = Ok local_maxima /\
    Forall (fun a => min_index + 1 <= a <= min_index + Z.of_nat (length t) - 12)
      local_maxima /\
    ((length t <= 12)%nat -> local_maxima = []).
Proof.
  destruct (get_local_maxima_ok t min_index) as (local_maxima & H & Hrange).
  exists local_maxima. split; [done|]. split.
  - eapply Forall_impl; [exact Hrange|]. simpl. lia.
  - intros Hshort. destruct Hrange as [|a rest [Ha1 Ha2] _]; [done | lia].
Qed.

(** X2: Every index returned by [get_local_maxima], taken back to the trace by
    subtracting the offset, is a strict local maximum: higher than both
    neighbours, higher than the sample ten positions later, and more than 0.1
    above the sample the subscript [peak - 10] denotes. *)
Theorem local_maxima_are_accepted_peaks (t : list Q) (min_index a : Z)
    (local_maxima : list Z) :
  get_local_maxima t min_index = Ok local_maxima ->
  a ∈ local_maxima ->
  exists l x r before after,
    t !! Z.to_nat (a - min_index - 1) = Some l /\
    t !! Z.to_nat (a - min_index) = Some x /\
    t !! Z.to_nat (a - min_index + 1) = Some r /\
    (l < x)%Q /\ (r < x)%Q /\
    Py.index t (a - min_index - 10) = Ok before /\
    (before + (1 # 10) < x)%Q /\
    t !! Z.to_nat (a - min_index + 10) = Some after /\
    (after < x)%Q.
Proof.
  destruct (get_local_maxima_spec t min_index)
    as (selected & -> & Hsub & Hall & _ & _).
  intros [= <-] (p & -> & Hp)%list_elem_of_fmap.
  replace (p + min_index - min_index) with p by lia.
  rewrite Forall_forall in Hall. pose proof (Hall p Hp) as Hok.
  apply Hsub in Hp.
  pose proof (argrelextrema_interior _ _ Hp) as Hint.
  destruct (argrelextrema_peak _ _ Hp) as (l & x & r & Hl & Hx & Hr & Hlx & Hrx).
  change (Some (-10)) with (Some (- (10))) in Hl, Hx, Hr, Hint.
  rewrite slice_drop_last in Hl, Hx, Hr, Hint by lia.
  apply lookup_take_Some in Hl as [Hl _], Hx as [Hx _], Hr as [Hr _].
  rewrite length_take in Hint.
  unfold high_and_convex, mbind, result_bind in Hok.
  rewrite (index_nonneg t p x) in Hok by (done || lia).
  destruct (Py.index t (p - 10)) as [before|] eqn:Hbefore; [|done].
  destruct (Py.Qltb (1 # 10) (Qabs (x - before))) eqn:Hhigh; [|done].
  destruct (Py.Qltb before x) eqn:Hlt; [|done].
  apply Qltb_lt in Hhigh, Hlt.
  destruct (Py.index t (p + 10)) as [after|] eqn:Hafter; [|done].
  simpl in Hok.
  injection Hok as Hafterlt%Qltb_lt.
  apply index_Ok_inv in Hafter as (j & Hafter & Hj).
  destruct (Z.ltb_spec (p + 10) 0); [lia|].
  replace j with (Z.to_nat (p + 10)) in Hafter by lia.
  exists l, x, r, before, after. repeat split; try done.
  rewrite Qabs_pos in Hhigh by lra. lra.
Qed.

Lemma local_maxima_are_accepted_peaks_witness :
  exists l x r before after,
    early_peak !! Z.to_nat (1 - 0 - 1) = Some l /\
    early_peak !! Z.to_nat (1 - 0) = Some x /\
    early_peak !! Z.to_nat (1 - 0 + 1) = Some r /\
    (l < x)%Q /\ (r < x)%Q /\
    Py.index early_peak (1 - 0 - 10) = Ok before /\
    (before + (1 # 10) < x)%Q /\
    early_peak !! Z.to_nat (1 - 0 + 10) = Some after /\
    (after < x)%Q.
Proof.
  apply (local_maxima_are_accepted_peaks early_peak 0 1 [1]).
  - vm_compute. reflexivity.
  - apply list_elem_of_here.
Defined.

Lemma StronglySorted_lookup {A : Type} (R : relation A) (l : list A)
    (i j : nat) (a b : A) :
  StronglySorted R l -> l !! i = Some a -> l !! j = Some b -> (i < j)%nat ->
  R a b.
Proof.
  intros Hs. revert i j.
  induction Hs as [|x rest _ IH Hx]; intros i j Ha Hb Hij; [done|].
  destruct j as [|j]; [lia|]. simpl in Hb.
  destruct i as [|i]; simpl in Ha.
  - injection Ha as <-. rewrite Forall_forall in Hx.
    apply Hx. by eapply list_elem_of_lookup_2.
  - apply (IH i j); [done | done | lia].
Qed.

(** X3: Two indices returned by [get_local_maxima] are at least ten positions
    apart, the earlier one first. *)
Theorem local_maxima_are_spaced (t : list Q) (min_index a b : Z)
    (local_maxima : list Z) (i j : nat) :
  get_local_maxima t min_index = Ok local_maxima ->
  local_maxima !! i = Some a ->
  local_maxima !! j = Some b ->
  (i < j)%nat ->
  a + 10 <= b.
Proof.
  destruct (get_local_maxima_spec t min_index)
    as (selected & -> & _ & _ & Hspaced & _).
  intros [= <-] Ha Hb Hij.
  apply list_lookup_fmap_Some in Ha as (p & -> & Hp), Hb as (q & -> & Hq).
  pose proof (StronglySorted_lookup _ _ _ _ _ _ Hspaced Hp Hq Hij) as H.
  simpl in H. lia.
Qed.

Lemma local_maxima_are_spaced_witness : 13 + 10 <= 24.
Proof.
  apply (local_maxima_are_spaced two_peaks 3 13 24 [13; 24] 0 1);
    [vm_compute; reflexivity | reflexivity | reflexivity | lia].
Defined.

Lemma local_maxima_loop_offset (t : list Q) (min_index : Z)
    (peaks acc : list Z) (previous : option Z) :
  local_maxima_loop t min_index peaks (map (fun a => a + min_index) acc)
    previous
  = match local_maxima_loop t 0 peaks acc previous with
    | Ok local_maxima => Ok (map (fun a => a + min_index) local_maxima)
    | Raise e => Raise e
    end.
Proof.
  revert acc previous.
  induction peaks as [|peak peaks IH]; intros acc previous; [done|].
  assert (local_maxima_loop t min_index peaks
            (map (fun a => a + min_index) acc ++ [peak + min_index])
            (Some peak)
          = match local_maxima_loop t 0 peaks (acc ++ [peak + 0]) (Some peak) with
            | Ok local_maxima => Ok (map (fun a => a + min_index) local_maxima)
            | Raise e => Raise e
            end) as Htake.
  { rewrite <- IH, map_app. simpl. by rewrite Z.add_0_r. }
  simpl. destruct (negb (Py.truthy previous)).
  - destruct (high_and_convex t peak) as [[|]|]; simpl; [done | apply IH | done].
  - destruct (10 <=? Z.abs (peak - default 0 previous)); simpl; [|apply IH].
    destruct (high_and_convex t peak) as [[|]|]; simpl; [done | apply IH | done].
Qed.

(** X4: The offset only shifts the result of [get_local_maxima]: the indices
    found with offset [min_index] are those found with offset 0, each
    increased by [min_index]. *)
Theorem local_maxima_offset (t : list Q) (min_index : Z) :
  exists local_maxima,
    get_local_maxima t 0 = Ok local_maxima /\
    get_local_maxima t min_index
    = Ok (map (fun a => a + min_index) local_maxima).
Proof.
  destruct (get_local_maxima_ok t 0) as (local_maxima & H & _).
  exists local_maxima. split; [done|].
  unfold get_local_maxima in *.
  change (@nil Z) with (map (fun a => a + min_index) []).
  by rewrite local_maxima_loop_offset, H.
Qed.

(** ** Slices, differences and enumeration *)

Lemma slice_between {A : Type} (l : list A) (a k : Z) :
  0 <= a -> 0 < k ->
  Py.slice l (Some a) (Some (- k))
  = take (length l - Z.to_nat k - Z.to_nat a) (drop (Z.to_nat a) l).
Proof.
  intros Ha Hk. unfold Py.slice, Py.bound.
  destruct (Z.ltb_spec a 0); [lia|]. destruct (Z.ltb_spec (- k) 0); [|lia].
  destruct (Z.le_gt_cases a (Z.of_nat (length l))).
  - rewrite Z.min_l by lia. f_equal. lia.
  - rewrite Z.min_r by lia. rewrite !drop_ge by lia. by rewrite !take_nil.
Qed.

Lemma slice_range {A : Type} (l : list A) (a b : Z) :
  0 <= a -> 0 <= b ->
  Py.slice l (Some a) (Some b)
  = take (Z.to_nat b - Z.to_nat a) (drop (Z.to_nat a) l).
Proof.
  intros Ha Hb. unfold Py.slice, Py.bound.
  destruct (Z.ltb_spec a 0); [lia|]. destruct (Z.ltb_spec b 0); [lia|].
  destruct (Z.le_gt_cases a (Z.of_nat (length l))).
  - rewrite (Z.min_l a) by lia.
    destruct (Z.le_gt_cases b (Z.of_nat (length l))).
    + rewrite (Z.min_l b) by lia. f_equal. lia.
    + rewrite (Z.min_r b) by lia.
      rewrite !take_ge; [done | rewrite length_drop; lia | rewrite length_drop; lia].
  - rewrite (Z.min_r a) by lia. rewrite !drop_ge by lia. by rewrite !take_nil.
Qed.

Lemma diff_times_10_length (domain : list Q) :
  length (get_diff_times_10 domain) = (length domain - 1)%nat.
Proof.
  induction domain as [|x [|y rest] IH]; [done | done |].
  change (S (length (get_diff_times_10 (y :: rest)))
          = (length (x :: y :: rest) - 1)%nat).
  rewrite IH. simpl. lia.
Qed.

Lemma diff_times_10_lookup (domain : list Q) (i : nat) (x y : Q) :
  domain !! i = Some x -> domain !! S i = Some y ->
  get_diff_times_10 domain !! i = Some ((y - x) * 10)%Q.
Proof.
  revert i. induction domain as [|a [|b rest] IH]; intros i Hx Hy; [done | |].
  - by destruct i.
  - destruct i as [|i].
    + by injection Hx as <-; injection Hy as <-.
    + apply (IH i Hx Hy).
Qed.

Lemma diff_times_10_lookup_inv (domain : list Q) (i : nat) (point : Q) :
  get_diff_times_10 domain !! i = Some point ->
  exists x y, domain !! i = Some x /\ domain !! S i = Some y /\
              point = ((y - x) * 10)%Q.
Proof.
  intros H. pose proof (lookup_lt_Some _ _ _ H) as Hlt.
  rewrite diff_times_10_length in Hlt.
  destruct (lookup_lt_is_Some_2 domain i) as [x Hx]; [lia|].
  destruct (lookup_lt_is_Some_2 domain (S i)) as [y Hy]; [lia|].
  rewrite (diff_times_10_lookup _ _ _ _ Hx Hy) in H. injection H as <-.
  by exists x, y.
Qed.

Lemma enumerate_lookup {A : Type} (l : list A) (j : nat) (z : Z) (x : A) :
  Py.enumerate l !! j = Some (z, x) <-> z = Z.of_nat j /\ l !! j = Some x.
Proof.
  unfold Py.enumerate.
  change (combine (map Z.of_nat (seq 0 (length l))) l)
    with (zip (Z.of_nat <$> seq 0 (length l)) l).
  rewrite lookup_zip_with_Some. split.
  - intros (z' & x' & [= <- <-] & Hz & Hx).
    apply list_lookup_fmap_Some in Hz as (k & -> & Hk).
    apply lookup_seq in Hk as [-> _]. done.
  - intros [-> Hx]. exists (Z.of_nat j), x. repeat split; [|done].
    apply list_lookup_fmap_Some. exists j. split; [done|].
    apply lookup_seq. split; [done|]. by eapply lookup_lt_Some.
Qed.

Lemma omap_last_inv {A B : Type} (f : A -> option B) (l : list A) (y : B) :
  last (omap f l) = Some y ->
  exists l1 x l2, l = l1 ++ x :: l2 /\ f x = Some y /\
                  Forall (fun x => f x = None) l2.
Proof.
  induction l as [|x l IH] using rev_ind; [done|].
  rewrite omap_app. simpl. destruct (f x) as [y'|] eqn:Hx.
  - rewrite last_snoc. intros [= <-]. exists l, x, []. by repeat split.
  - rewrite app_nil_r. intros (l1 & x0 & l2 & -> & Hx0 & Hl2)%IH.
    exists l1, x0, (l2 ++ [x]). rewrite <- app_assoc. repeat split; [done|].
    apply Forall_app. split; [done|]. by constructor.
Qed.

Lemma omap_nil_inv {A B : Type} (f : A -> option B) (l : list A) :
  omap f l = [] -> Forall (fun x => f x = None) l.
Proof.
  induction l as [|x l IH]; simpl; [by constructor|].
  destruct (f x) eqn:Hx; [done|]. intros H. constructor; [done | by apply IH].
Qed.

Lemma index_minus_1_inv {A : Type} (l : list A) (x : A) :
  Py.index l (-1) = Ok x -> last l = Some x.
Proof.
  intros (j & Hj & Hlen)%index_Ok_inv. simpl in Hlen.
  rewrite last_lookup. by replace (pred (length l)) with j by lia.
Qed.

Lemma index_minus_1_raises {A : Type} (l : list A) (e : exn) :
  Py.index l (-1) = Raise e -> l = [] /\ e = IndexError.
Proof.
  destruct l as [|x l].
  - rewrite index_empty. by intros [= <-].
  - destruct (index_in_range (x :: l) (-1)) as [y ->]; [simpl; lia | done].
Qed.

(** ** The end of the averaging domain *)

Lemma get_end_of_mcv_domain_inv (t : list Q) (domain_end : Z) :
  get_end_of_mcv_domain t = Ok domain_end ->
  exists argmin (i : nat) point,
    Np.argmin t = Ok argmin /\
    domain_end = Z.of_nat i + argmin /\
    let domain :=
      get_diff_times_10 (Py.slice t (Some argmin) (Some (-30))) in
    domain !! i = Some point /\
    Np.gt_times_std point (5 # 2) (Np.var domain) = true /\
    forall j point', domain !! j = Some point' -> (i < j)%nat ->
      Np.gt_times_std point' (5 # 2) (Np.var domain) = false.
Proof.
  unfold get_end_of_mcv_domain. intros H.
  destruct (Np.argmin t) as [argmin|] eqn:Hmin; [simpl in H|done].
  apply index_minus_1_inv, omap_last_inv in H
    as (l1 & [index point] & l2 & Henum & Hf & Hnone).
  destruct (Np.gt_times_std point (5 # 2) _) eqn:Hgt; [|done].
  injection Hf as <-.
  assert (Py.enumerate
            (get_diff_times_10 (Py.slice t (Some argmin) (Some (-30))))
          !! length l1 = Some (index, point)) as Hi.
  { rewrite Henum. by apply list_lookup_middle. }
  apply enumerate_lookup in Hi as [-> Hi].
  exists argmin, (length l1), point. repeat split; try done.
  intros j point' Hj Hlt.
  assert (Py.enumerate
            (get_diff_times_10 (Py.slice t (Some argmin) (Some (-30))))
          !! j = Some (Z.of_nat j, point')) as Hj'
    by by apply enumerate_lookup.
  rewrite Henum, lookup_app_r, lookup_cons_ne_0 in Hj' by lia.
  rewrite Forall_forall in Hnone.
  specialize (Hnone _ (list_elem_of_lookup_2 _ _ _ Hj')). simpl in Hnone.
  by destruct (Np.gt_times_std point' (5 # 2) _).
Qed.

(** X5: When [get_end_of_mcv_domain] returns an index, it lies at or after the
    first minimum and at least 32 positions before the end of the trace, the
    trace rises strictly from it to the next sample, the scaled difference
    there exceeds 2.5 standard deviations, and no later scaled difference of
    the domain does. *)
Theorem domain_end_is_last_surge (t : list Q) (domain_end : Z) :
  get_end_of_mcv_domain t = Ok domain_end ->
  exists argmin x y,
    Np.argmin t = Ok argmin /\
    argmin <= domain_end /\ domain_end + 32 <= Z.of_nat (length t) /\
    t !! Z.to_nat domain_end = Some x /\
    t !! Z.to_nat (domain_end + 1) = Some y /\ (x < y)%Q /\
    let domain :=
      get_diff_times_10 (Py.slice t (Some argmin) (Some (-30))) in
    Np.gt_times_std ((y - x) * 10) (5 # 2) (Np.var domain) = true /\
    forall j point, domain !! j = Some point ->
      domain_end - argmin < Z.of_nat j ->
      Np.gt_times_std point (5 # 2) (Np.var domain) = false.
Proof.
  intros (argmin & i & point & Hmin & -> & Hi & Hgt & Hlast)
    %get_end_of_mcv_domain_inv.
  pose proof (argmin_range _ _ Hmin) as Hrange.
  destruct (diff_times_10_lookup_inv _ _ _ Hi) as (x & y & Hx & Hy & ->).
  change (Some (-30)) with (Some (- (30))) in Hx, Hy.
  rewrite slice_between in Hx, Hy by lia.
  apply lookup_take_Some in Hx as [Hx _], Hy as [Hy Hlen].
  rewrite lookup_drop in Hx, Hy.
  exists argmin, x, y. split; [done|]. split; [lia|]. split; [lia|].
  split; [by replace (Z.to_nat (Z.of_nat i + argmin))
             with (Z.to_nat argmin + i)%nat by lia|].
  split; [by replace (Z.to_nat (Z.of_nat i + argmin + 1))
             with (Z.to_nat argmin + S i)%nat by lia|].
  split.
  - unfold Np.gt_times_std in Hgt. destruct (Np.var _); [|done].
    apply andb_true_iff in Hgt as [Hpos%Qltb_lt _]. lra.
  - split; [done|]. intros j point' Hj Hlt. apply (Hlast j point' Hj). lia.
Qed.

Lemma domain_end_is_last_surge_witness :
  exists argmin x y,
    Np.argmin rising_trace = Ok argmin /\
    argmin <= 3 /\ 3 + 32 <= Z.of_nat (length rising_trace) /\
    rising_trace !! Z.to_nat 3 = Some x /\
    rising_trace !! Z.to_nat (3 + 1) = Some y /\ (x < y)%Q /\
    let domain :=
      get_diff_times_10 (Py.slice rising_trace (Some argmin) (Some (-30))) in
    Np.gt_times_std ((y - x) * 10) (5 # 2) (Np.var domain) = true /\
    forall j point, domain !! j = Some point ->
      3 - argmin < Z.of_nat j ->
      Np.gt_times_std point (5 # 2) (Np.var domain) = false.
Proof.
  apply (domain_end_is_last_surge rising_trace 3).
  vm_compute. reflexivity.
Defined.

Lemma get_end_raises_inv (t : list Q) (e : exn) :
  t <> [] -> get_end_of_mcv_domain t = Raise e ->
  Spec.no_surge t /\ e = IndexError.
Proof.
  intros Hne H. unfold get_end_of_mcv_domain in H.
  destruct (argmin_nonempty t Hne) as [argmin Hmin].
  rewrite Hmin in H. simpl in H.
  apply index_minus_1_raises in H as [H ->]. split; [|done].
  intros argmin' Hmin'. rewrite Hmin in Hmin'. injection Hmin' as <-. simpl.
  apply omap_nil_inv in H.
  apply Forall_forall. intros point Hpoint.
  apply list_elem_of_lookup_1 in Hpoint as [j Hj].
  rewrite Forall_forall in H.
  assert ((Z.of_nat j, point)
          ∈ Py.enumerate
              (get_diff_times_10 (Py.slice t (Some argmin) (Some (-30)))))
    as Hin.
  { eapply list_elem_of_lookup_2. by apply enumerate_lookup. }
  specialize (H _ Hin). simpl in H.
  by destruct (Np.gt_times_std point (5 # 2) _).
Qed.

(** X6: [get_end_of_mcv_domain] raises [ValueError] exactly on the empty trace
    and [IndexError] exactly on a non-empty trace none of whose scaled
    differences exceeds 2.5 standard deviations; it raises nothing else. *)
Theorem domain_end_errors (t : list Q) (e : exn) :
  get_end_of_mcv_domain t = Raise e <->
  (t = [] /\ e = ValueError) \/
  (t <> [] /\ Spec.no_surge t /\ e = IndexError).
Proof.
  split.
  - destruct t as [|x t]; [intros [= <-]; by left|].
    intros H. right. split; [done|]. by apply get_end_raises_inv.
  - intros [[-> ->]|(Hne & Hflat & ->)]; [done|].
    by apply no_surge_no_end.
Qed.

(** X7: [get_diff_times_10] yields one value per pair of neighbours: the
    result is one shorter than the domain (empty for a domain of fewer than
    two samples) and its value at [i] is ten times the step from sample [i]
    to sample [i+1]. *)
Theorem diff_times_10_pointwise (domain : list Q) :
  length (get_diff_times_10 domain) = (length domain - 1)%nat /\
  forall i x y, domain !! i = Some x -> domain !! S i = Some y ->
    get_diff_times_10 domain !! i = Some ((y - x) * 10)%Q.
Proof.
  split; [apply diff_times_10_length|].
  intros i x y. apply diff_times_10_lookup.
Qed.

(** ** Smoothing *)

Lemma smoothed_trace_shape (c : crank) (i : Z) :
  Np.argmin (crank_profile c) = Ok i ->
  exists before m after,
    crank_profile c = before ++ m :: after /\
    Z.of_nat (length before) = i /\
    Forall (fun x => (m < x)%Q) before /\
    Forall (fun x => (m <= x)%Q) (Spec.moving_average 5 after) /\
    get_smoothed_trace c 5 = Ok (before ++ m :: Spec.moving_average 5 after) /\
    Np.argmin (before ++ m :: Spec.moving_average 5 after) = Ok i.
Proof.
  intros Hi.
  destruct (argmin_sound _ _ Hi)
    as [Hi0 (before & m & after & Hp & Hlen & Hb & Ha)].
  assert (Forall (fun x => (m <= x)%Q) (Spec.moving_average 5 after)) as Ha'
    by (apply moving_average_ge; [lia | done]).
  exists before, m, after. split; [done|]. split; [lia|].
  split; [done|]. split; [done|].
  split; [by apply smoothed_trace_split|].
  replace i with (Z.of_nat (length before)) by lia.
  apply argmin_first_minimum.
  by exists before, m, (Spec.moving_average 5 after).
Qed.

Lemma extract_features_no_end (c : crank) (smoothed_trace : list Q) (e : exn) :
  get_smoothed_trace c 5 = Ok smoothed_trace ->
  get_end_of_mcv_domain smoothed_trace = Raise e ->
  extract_features c = Raise e.
Proof.
  intros Hst Hend.
  pose proof (smoothed_trace_nonempty _ _ Hst) as Hne.
  destruct (argmin_nonempty _ Hne) as [min_index Hmin].
  destruct (get_iv_ok smoothed_trace min_index
              (proj1 (argmin_range _ _ Hmin)) Hne) as [iv Hiv].
  unfold extract_features. rewrite Hst. simpl. rewrite Hmin. simpl.
  rewrite Hiv. simpl. unfold get_mcv. by rewrite Hend.
Qed.

(** X9: A profile with fewer than 32 samples from its first minimum on is
    always discarded: the domain searched for a surge holds at most one
    sample, so no end of the domain is found. *)
Theorem short_profile_is_discarded (c : crank) (min_index : Z) :
  Np.argmin (crank_profile c) = Ok min_index ->
  Z.of_nat (length (crank_profile c)) <= min_index + 31 ->
  extract_features c = Raise IndexError.
Proof.
  intros Hmin Hshort.
  destruct (smoothed_trace_shape c min_index Hmin)
    as (before & m & after & Hp & Hlen & _ & _ & Hst & Hmin').
  apply (extract_features_no_end c _ _ Hst).
  unfold get_end_of_mcv_domain. rewrite Hmin'. simpl.
  change (Some (-30)) with (Some (- (30))).
  rewrite slice_between by lia.
  set (domain := take _ _).
  assert (length domain <= 1)%nat as Hdomain.
  { unfold domain. rewrite length_take, length_drop, length_app. simpl.
    rewrite moving_average_length.
    rewrite Hp, length_app in Hshort. simpl in Hshort. lia. }
  assert (get_diff_times_10 domain = []) as ->.
  { apply nil_length_inv. rewrite diff_times_10_length. lia. }
  apply index_empty.
Qed.

Lemma short_profile_is_discarded_witness :
  extract_features (Crank scenario_profile "2018-11-26T07:36")
  = Raise IndexError.
Proof.
  apply (short_profile_is_discarded
           (Crank scenario_profile "2018-11-26T07:36") 3).
  - vm_compute. reflexivity.
  - vm_compute. discriminate.
Defined.

(** X10: [get_mcv] raises exactly when [get_end_of_mcv_domain] does, and then
    the same exception: once the end of the domain is found, the search for
    the local maxima, the projection of the last one and the rounded mean
    never raise. *)
Theorem mcv_raises_as_domain_end (t : list Q) (min_index : Z) (e : exn) :
  0 <= min_index ->
  get_mcv t min_index = Raise e <-> get_end_of_mcv_domain t = Raise e.
Proof.
  intros Hmin. split.
  - intros H. destruct (get_end_of_mcv_domain t) as [domain_end|e'] eqn:Hend.
    + destruct (get_local_maxima_ok
                  (Py.slice t (Some min_index) (Some domain_end)) min_index)
        as (local_maxima & Hlm & _).
      by rewrite (get_mcv_spec t min_index domain_end local_maxima Hmin Hend Hlm)
        in H.
    + unfold get_mcv in H. rewrite Hend in H. by injection H as ->.
  - intros H. unfold get_mcv. by rewrite H.
Qed.

Lemma mcv_raises_as_domain_end_witness :
  get_mcv flat_profile 1 = Raise IndexError
  <-> get_end_of_mcv_domain flat_profile = Raise IndexError.
Proof. apply (mcv_raises_as_domain_end flat_profile 1 IndexError). lia. Defined.

(** ** Initial and low valley voltage *)

(** X11: Smoothing can only widen the span between the two voltages: in an
    extracted record [lvv] is at most the minimum of the raw profile, [iv] is
    at least what [get_iv] yields on the raw profile up to that minimum, and
    [lvv <= iv].  The smoothed trace keeps the profile up to its first
    minimum, and its own minimum is not before that position. *)
Theorem smoothing_widens_iv_and_lvv (c : crank)
    (features : gmap string value) :
  extract_features c = Ok features ->
  exists index_min lowest raw_iv iv lvv,
    Np.argmin (crank_profile c) = Ok index_min /\
    Py.index (crank_profile c) index_min = Ok lowest /\
    get_iv (crank_profile c) index_min = Ok raw_iv /\
    features !! "iv" = Some (Num iv) /\
    features !! "lvv" = Some (Num lvv) /\
    (lvv <= lowest)%Q /\
    (raw_iv <= iv)%Q /\
    (lvv <= iv)%Q.
Proof.
  intros (st & min_index & iv & mcv & lvv & Hst & Hmin & Hiv & _ & Hlvv & ->)
    %extract_features_inv.
  assert (crank_profile c <> []) as Hne.
  { intros Hp. unfold get_smoothed_trace in Hst. by rewrite Hp in Hst. }
  destruct (argmin_nonempty _ Hne) as [i Hi].
  destruct (argmin_sound _ _ Hi) as [Hi0 (before & m & after & Hp & Hlen & _)].
  assert (crank_profile c !! Z.to_nat i = Some m) as Hm.
  { rewrite Hp, <- Hlen. by apply list_lookup_middle. }
  pose proof (lookup_lt_Some _ _ _ Hm) as Hlt.
  destruct (get_iv_ok (crank_profile c) i Hi0 Hne) as [raw_iv Hraw].
  pose proof (argmin_range _ _ Hmin) as Hrange.
  (* the smoothed trace keeps the profile up to its first minimum *)
  assert (take (S (Z.to_nat i)) st = take (S (Z.to_nat i)) (crank_profile c))
    as Hkept.
  { unfold get_smoothed_trace in Hst. rewrite Hi in Hst. simpl in Hst.
    injection Hst as <-. rewrite slice_upto by lia.
    replace (Z.to_nat (i + 1)) with (S (Z.to_nat i)) by lia.
    apply take_app_length'. rewrite length_take. lia. }
  assert (st !! Z.to_nat i = Some m) as Hm'.
  { rewrite <- (lookup_take_lt st (S (Z.to_nat i))) by lia.
    rewrite Hkept, lookup_take_lt by lia. done. }
  (* the minimum of the smoothed trace is not before that of the profile *)
  assert (i <= min_index) as Hle.
  { destruct (argmin_sound _ _ Hmin)
      as [_ (before' & m' & after' & Hst' & Hlen' & Hb' & Ha')].
    destruct (Z.lt_ge_cases min_index i) as [Hlt'|]; [exfalso | lia].
    assert (st !! Z.to_nat min_index = Some m') as Hmin'.
    { rewrite Hst', <- Hlen'. by apply list_lookup_middle. }
    assert (crank_profile c !! Z.to_nat min_index = Some m') as Hraw'.
    { rewrite <- (lookup_take_lt _ (S (Z.to_nat i))) by lia.
      rewrite <- Hkept, lookup_take_lt by lia. done. }
    destruct (argmin_sound _ _ Hi)
      as [_ (before2 & m2 & after2 & Hp2 & Hlen2 & Hb2 & _)].
    assert (m2 = m) as ->.
    { rewrite Hp2, <- Hlen2 in Hm. rewrite list_lookup_middle in Hm by done.
      by injection Hm. }
    assert (m' ∈ before2) as Hin.
    { rewrite Hp2 in Hraw'. rewrite lookup_app_l in Hraw' by lia.
      by eapply list_elem_of_lookup_2. }
    rewrite Forall_forall in Hb2. specialize (Hb2 _ Hin).
    assert (m ∈ after') as Hin'.
    { rewrite Hst' in Hm'. rewrite lookup_app_r in Hm' by lia.
      destruct (Z.to_nat i - length before')%nat as [|k] eqn:Hk; [lia|].
      simpl in Hm'. by eapply list_elem_of_lookup_2. }
    rewrite Forall_forall in Ha'. specialize (Ha' _ Hin'). lra. }
  exists i, m, raw_iv, iv, lvv.
  split; [done|]. split; [by apply index_nonneg|]. split; [done|].
  split; [by simplify_map_eq|]. split; [by simplify_map_eq|].
  apply min_spec in Hlvv as [_ Hlow].
  apply max_spec in Hiv as [_ Hhigh].
  apply max_spec in Hraw as [Hin _].
  rewrite slice_upto in Hhigh, Hin by lia.
  rewrite Forall_forall in Hlow, Hhigh.
  assert (m ∈ st) as Hmst by (by eapply list_elem_of_lookup_2).
  assert (forall x, x ∈ take (Z.to_nat (i + 1)) (crank_profile c) ->
                    x ∈ take (Z.to_nat (min_index + 1)) st) as Hsub.
  { intros x [k Hk]%list_elem_of_lookup_1.
    pose proof (lookup_lt_Some _ _ _ Hk) as Hk'. rewrite length_take in Hk'.
    rewrite lookup_take_lt in Hk by lia.
    apply (list_elem_of_lookup_2 _ k).
    rewrite lookup_take_lt by lia.
    rewrite <- (lookup_take_lt st (S (Z.to_nat i))) by lia.
    rewrite Hkept, lookup_take_lt by lia. done. }
  split; [by apply Hlow|]. split; [by apply Hhigh, Hsub|].
  assert (m ∈ take (Z.to_nat (min_index + 1)) st) as Hmtake.
  { apply (list_elem_of_lookup_2 _ (Z.to_nat i)).
    rewrite lookup_take_lt by lia. done. }
  pose proof (Hlow _ Hmst). pose proof (Hhigh _ Hmtake). lra.
Qed.

Lemma smoothing_widens_iv_and_lvv_witness :
  exists features,
    extract_features (Crank rising_trace "2018-11-26T07:36") = Ok features /\
    exists index_min lowest raw_iv iv lvv,
      Np.argmin rising_trace = Ok index_min /\
      Py.index rising_trace index_min = Ok lowest /\
      get_iv rising_trace index_min = Ok raw_iv /\
      features !! "iv" = Some (Num iv) /\
      features !! "lvv" = Some (Num lvv) /\
      (lvv <= lowest)%Q /\
      (raw_iv <= iv)%Q /\
      (lvv <= iv)%Q.
Proof.
  edestruct extract_features_ok
    with (c := Crank rising_trace "2018-11-26T07:36")
         (min_index := 1) (domain_end := 3)
    as [features Hf];
    [ vm_compute; reflexivity | vm_compute; reflexivity
    | vm_compute; reflexivity | ].
  exists features. split; [exact Hf|].
  exact (smoothing_widens_iv_and_lvv _ _ Hf).
Defined.

(** X12: A peak found by [argrelextrema] that passes the acceptance test is
    left out of the result of [get_local_maxima] only when an accepted
    maximum lies fewer than ten positions before it. *)
Theorem qualifying_peak_is_kept_or_shadowed (t : list Q) (min_index p : Z)
    (local_maxima : list Z) :
  get_local_maxima t min_index = Ok local_maxima ->
  p ∈ Np.argrelextrema_greater (Py.slice t None (Some (-10))) ->
  high_and_convex t p = Ok true ->
  p + min_index ∈ local_maxima \/
  exists q, q + min_index ∈ local_maxima /\ q < p < q + 10.
Proof.
  destruct (get_local_maxima_spec t min_index)
    as (selected & -> & _ & _ & _ & Hkept).
  intros [= <-] Hp Hok.
  destruct (Hkept p Hp Hok) as [?|(q & Hq & ?)].
  - left. apply list_elem_of_fmap. by exists p.
  - right. exists q. split; [|done]. apply list_elem_of_fmap. by exists q.
Qed.

Lemma qualifying_peak_is_kept_or_shadowed_witness :
  10 + 3 ∈ [13; 24] \/ exists q, q + 3 ∈ [13; 24] /\ q < 10 < q + 10.
Proof.
  apply (qualifying_peak_is_kept_or_shadowed two_peaks 3 10 [13; 24]).
  - vm_compute. reflexivity.
  - vm_compute. apply list_elem_of_here.
  - vm_compute. reflexivity.
Defined.

(** ** The projection of the last maximum *)

Lemma index_raises_iff {A : Type} (l : list A) (i : Z) (e : exn) :
  Py.index l i = Raise e <->
  (i < - Z.of_nat (length l) \/ Z.of_nat (length l) <= i) /\ e = IndexError.
Proof.
  split.
  - intros H.
    destruct (Z.lt_ge_cases i (- Z.of_nat (length l))) as [?|Hlo].
    { split; [by left|]. unfold Py.index in H.
      destruct (Z.ltb_spec i 0); [|lia].
      destruct (Z.ltb_spec (i + Z.of_nat (length l)) 0); [|lia].
      simpl in H. by injection H as <-. }
    destruct (Z.le_gt_cases (Z.of_nat (length l)) i) as [?|Hhi].
    { split; [by right|]. rewrite index_out_of_range in H by done.
      by injection H as <-. }
    destruct (index_in_range l i) as [x Hx]; [lia|]. by rewrite Hx in H.
  - intros [[Hlo|Hhi] ->]; [|by apply index_out_of_range].
    unfold Py.index. destruct (Z.ltb_spec i 0); [|lia].
    by destruct (Z.ltb_spec (i + Z.of_nat (length l)) 0); [|lia].
Qed.

(** X13: [project_last_maximum_on_curve] raises only [IndexError], and exactly
    when [last_maximum] is not a legal subscript of the trace. *)
Theorem projection_errors (t : list Q) (last_maximum : Z) (e : exn) :
  project_last_maximum_on_curve t last_maximum = Raise e <->
  (last_maximum < - Z.of_nat (length t) \/ Z.of_nat (length t) <= last_maximum)
  /\ e = IndexError.
Proof.
  rewrite <- index_raises_iff. unfold project_last_maximum_on_curve.
  destruct (Py.index t last_maximum); simpl; split; congruence.
Qed.

(** X14: For a position [last_maximum] of the trace,
    [project_last_maximum_on_curve] returns the first position from
    [last_maximum + 10] on, and before the last ten samples, whose sample is
    strictly above the one at [last_maximum]; it returns [None] exactly when
    there is no such position. *)
Theorem projection_is_first_point_above (t : list Q) (last_maximum : Z) :
  0 <= last_maximum < Z.of_nat (length t) ->
  exists limit projection,
    t !! Z.to_nat last_maximum = Some limit /\
    project_last_maximum_on_curve t last_maximum = Ok projection /\
    match projection with
    | Some index =>
        last_maximum + 10 <= index < Z.of_nat (length t) - 10 /\
        (exists point, t !! Z.to_nat index = Some point /\ (limit < point)%Q) /\
        forall i point,
          last_maximum + 10 <= Z.of_nat i < index ->
          t !! i = Some point -> (point <= limit)%Q
    | None =>
        forall i point,
          last_maximum + 10 <= Z.of_nat i < Z.of_nat (length t) - 10 ->
          t !! i = Some point -> (point <= limit)%Q
    end.
Proof.
  intros Hrange.
  destruct (lookup_lt_is_Some_2 t (Z.to_nat last_maximum)) as [limit Hlimit];
    [lia|].
  exists limit, (Z.of_nat <$> Spec.projection t (Z.to_nat last_maximum)).
  split; [done|]. split; [by apply project_last_maximum_spec|].
  destruct (Spec.projection t (Z.to_nat last_maximum)) as [j|] eqn:Hproj; simpl.
  - destruct (projection_bounds _ _ _ Hproj) as [Hj Habove].
    rewrite (nth_lookup_Some _ _ _ _ Hlimit) in Habove.
    split; [lia|]. split.
    + destruct (lookup_lt_is_Some_2 t j) as [point Hpoint]; [lia|].
      exists point. rewrite Nat2Z.id. split; [done|].
      by rewrite (nth_lookup_Some _ _ _ _ Hpoint) in Habove.
    + intros i point Hi Hpoint.
      pose proof (projection_first _ _ _ i Hproj) as Hbelow.
      rewrite (nth_lookup_Some _ _ _ _ Hlimit),
        (nth_lookup_Some _ _ _ _ Hpoint) in Hbelow.
      apply Hbelow. lia.
  - intros i point Hi Hpoint.
    pose proof (projection_none _ _ i Hproj) as Hbelow.
    rewrite (nth_lookup_Some _ _ _ _ Hlimit),
      (nth_lookup_Some _ _ _ _ Hpoint) in Hbelow.
    apply Hbelow. lia.
Qed.

Lemma projection_is_first_point_above_witness :
  exists limit projection,
    peak_profile !! Z.to_nat 14 = Some limit /\
    project_last_maximum_on_curve peak_profile 14 = Ok projection /\
    match projection with
    | Some index =>
        14 + 10 <= index < Z.of_nat (length peak_profile) - 10 /\
        (exists point, peak_profile !! Z.to_nat index = Some point /\
                       (limit < point)%Q) /\
        forall i point,
          14 + 10 <= Z.of_nat i < index ->
          peak_profile !! i = Some point -> (point <= limit)%Q
    | None =>
        forall i point,
          14 + 10 <= Z.of_nat i < Z.of_nat (length peak_profile) - 10 ->
          peak_profile !! i = Some point -> (point <= limit)%Q
    end.
Proof.
  apply (projection_is_first_point_above peak_profile 14).
  vm_compute. split; [discriminate | reflexivity].
Defined.

(** ** The mean crank voltage *)

Lemma slice_range_nil (t : list Q) (a b : Z) :
  0 <= a < Z.of_nat (length t) -> 0 <= b ->
  Py.slice t (Some a) (Some b) = [] <-> b <= a.
Proof.
  intros Ha Hb. rewrite slice_range by lia. split.
  - intros H. apply (f_equal length) in H.
    rewrite length_take, length_drop in H. simpl in H. lia.
  - intros H. replace (Z.to_nat b - Z.to_nat a)%nat with 0%nat by lia. done.
Qed.

Lemma upper_bound_above (t : list Q) (min_index domain_end : Z)
    (local_maxima : list Z) :
  0 <= min_index -> min_index <= domain_end ->
  Forall (fun a => min_index < a /\
                   a + 11 < min_index
                     + Z.of_nat (length (Py.slice t (Some min_index)
                                           (Some domain_end)))) local_maxima ->
  (local_maxima = [] /\ Spec.upper_bound t local_maxima domain_end = domain_end)
  \/ (min_index < domain_end /\
      min_index < Spec.upper_bound t local_maxima domain_end).
Proof.
  intros Hmin Hend Hrange. unfold Spec.upper_bound.
  destruct (last local_maxima) as [a|] eqn:Hlast.
  - right. apply last_Some in Hlast as [l' ->].
    apply Forall_app in Hrange as [_ [[Ha Hfit] _]%Forall_cons].
    rewrite slice_range, length_take in Hfit by lia.
    split; [lia|].
    destruct (Spec.projection t (Z.to_nat a)) as [j|] eqn:Hproj; [|lia].
    apply projection_bounds in Hproj as [? _]. lia.
  - left. apply last_None in Hlast. done.
Qed.

(** X15: A record can be extracted with a not-a-number [mcv]: this happens
    exactly when the end of the averaging domain is the first minimum
    itself, the averaged slice being empty then. *)
Theorem mcv_is_nan_iff (c : crank) (features : gmap string value) :
  extract_features c = Ok features ->
  features !! "mcv" = Some NaN <->
  exists smoothed_trace,
    get_smoothed_trace c 5 = Ok smoothed_trace /\
    get_end_of_mcv_domain smoothed_trace = Np.argmin smoothed_trace.
Proof.
  intros (st & min_index & iv & mcv & lvv & Hst & Hmin & _ & Hmcv & _ & ->)
    %extract_features_inv.
  pose proof (argmin_range _ _ Hmin) as Hrange.
  destruct (get_end_of_mcv_domain st) as [domain_end|e] eqn:Hend;
    [|unfold get_mcv in Hmcv; by rewrite Hend in Hmcv].
  destruct (get_end_of_mcv_domain_inv _ _ Hend)
    as (argmin & i & point & Hmin' & -> & _).
  rewrite Hmin in Hmin'. injection Hmin' as <-.
  destruct (get_local_maxima_ok
              (Py.slice st (Some min_index) (Some (Z.of_nat i + min_index)))
              min_index) as (local_maxima & Hlm & Hfit).
  rewrite (get_mcv_spec _ _ _ _ (proj1 Hrange) Hend Hlm) in Hmcv.
  injection Hmcv as <-.
  assert (features_mcv :
    (<["iv" := Num iv]> (<["lvv" := Num lvv]>
       (<["mcv" := of_float
            (Np.round
               (Np.mean
                  (Py.slice st (Some min_index)
                     (Some (Spec.upper_bound st local_maxima
                              (Z.of_nat i + min_index))))) 2)]>
          (<["time" := Str (time c)]> ∅))) : gmap string value) !! "mcv"
    = Some (of_float
              (Np.round
                 (Np.mean
                    (Py.slice st (Some min_index)
                       (Some (Spec.upper_bound st local_maxima
                                (Z.of_nat i + min_index))))) 2)))
    by by simplify_map_eq.
  rewrite features_mcv. clear features_mcv.
  assert (Py.slice st (Some min_index)
            (Some (Spec.upper_bound st local_maxima (Z.of_nat i + min_index)))
          = [] <-> Z.of_nat i + min_index = min_index) as Hempty.
  { destruct (upper_bound_above st min_index (Z.of_nat i + min_index)
                local_maxima) as [[_ ->]|[? ?]]; [lia | lia | done | |].
    - rewrite slice_range_nil by lia. lia.
    - rewrite slice_range_nil by lia. lia. }
  split.
  - intros Hnan. exists st. split; [done|]. rewrite Hmin, Hend. f_equal.
    apply (proj1 Hempty).
    destruct (Py.slice st (Some min_index) (Some (Spec.upper_bound _ _ _)));
      [done | by simpl in Hnan].
  - intros (st' & Hst' & Heq). rewrite Hst in Hst'. injection Hst' as <-.
    rewrite Hmin, Hend in Heq.
    injection Heq as Heq.
    by rewrite (proj2 Hempty Heq).
Qed.

Lemma mcv_is_nan_iff_witness :
  exists features,
    extract_features (Crank nan_profile "2018-11-26T07:36") = Ok features /\
    features !! "mcv" = Some NaN.
Proof.
  edestruct extract_features_ok
    with (c := Crank nan_profile "2018-11-26T07:36")
         (min_index := 1) (domain_end := 1)
    as [features Hf];
    [ vm_compute; reflexivity | vm_compute; reflexivity
    | vm_compute; reflexivity | ].
  exists features. split; [exact Hf|].
  apply (mcv_is_nan_iff _ _ Hf).
  eexists. split; vm_compute; reflexivity.
Defined.

(** ** File names *)

Lemma split_nonempty (sep : ascii) (s : string) : Py.split sep s <> [].
Proof.
  destruct s as [|c r]; [done|]. simpl.
  destruct (Ascii.eqb c sep); [done|]. by destruct (Py.split sep r).
Qed.

Lemma split_head_not_json (file : string) :
  exists stem pieces,
    Py.split "." file = stem :: pieces /\
    Py.endswith (stem +:+ ".csv") ".json" = false.
Proof.
  induction file as [|c r (stem & pieces & Hsplit & Hjson)].
  - by exists "", [].
  - simpl. destruct (Ascii.eqb c ".") eqn:Hc.
    + by exists "", (Py.split "." r).
    + rewrite Hsplit. exists (String c stem), pieces. split; [done|].
      change (String c stem +:+ ".csv") with (String c (stem +:+ ".csv")).
      simpl. by rewrite Hc, Hjson.
Qed.

Lemma csv_file_Ok (file : string) :
  exists name,
    CsvFromEs.csv_file file = Ok name /\ Py.endswith name ".json" = false.
Proof.
  destruct (split_head_not_json file) as (stem & pieces & Hsplit & Hjson).
  exists (stem +:+ ".csv"). split; [|done].
  unfold CsvFromEs.csv_file. by rewrite Hsplit.
Qed.

(** X17: The name [csv_file] computes is never one the converter would read:
    [csv_file] never raises, its result is a dot-free prefix of the input
    name followed by [.csv], and it does not end in [.json]. *)
Theorem csv_file_is_never_an_input (file : string) :
  exists stem,
    CsvFromEs.csv_file file = Ok (stem +:+ ".csv") /\
    Py.split "." stem = [stem] /\
    (stem = file \/ exists rest, file = stem +:+ String "." rest) /\
    Py.endswith (stem +:+ ".csv") ".json" = false.
Proof.
  destruct (split_head_not_json file) as (stem & pieces & Hsplit & Hjson).
  exists stem. split; [unfold CsvFromEs.csv_file; by rewrite Hsplit|].
  split; [|split; [|done]]; clear Hjson; revert stem pieces Hsplit.
  - induction file as [|c r IH]; intros stem pieces; simpl.
    + by intros [= <- <-].
    + destruct (Ascii.eqb c ".") eqn:Hc; [by intros [= <- <-]|].
      destruct (Py.split "." r) as [|piece others] eqn:Hr.
      * intros [= <- <-]. simpl. by rewrite Hc.
      * intros [= <- <-]. simpl. by rewrite Hc, (IH piece others eq_refl).
  - induction file as [|c r IH]; intros stem pieces; simpl.
    + intros [= <- <-]. by left.
    + destruct (Ascii.eqb_spec c ".") as [->|Hc].
      { intros [= <- <-]. right. by exists r. }
      destruct (Py.split "." r) as [|piece others] eqn:Hr.
      { by destruct (split_nonempty "." r). }
      intros [= <- <-]. destruct (IH piece others eq_refl) as [->|[rest ->]].
      * by left.
      * right. by exists rest.
Qed.

Lemma split_head_before_dot (stem : string) :
  exists head, forall rest,
    exists pieces, Py.split "." (stem +:+ String "." rest) = head :: pieces.
Proof.
  induction stem as [|c r [head IH]].
  - exists "". intros rest. by exists (Py.split "." rest).
  - destruct (Ascii.eqb c ".") eqn:Hc.
    + exists "". intros rest.
      change (String c r +:+ String "." rest)
        with (String c (r +:+ String "." rest)).
      simpl. rewrite Hc. by eexists.
    + exists (String c head). intros rest. destruct (IH rest) as [pieces Hsplit].
      change (String c r +:+ String "." rest)
        with (String c (r +:+ String "." rest)).
      simpl. rewrite Hc, Hsplit. by eexists.
Qed.

(** X18: Only what precedes the first dot of a name enters the name of the file
    written: inputs that differ after a dot are written to the same
    file. *)
Theorem csv_file_ignores_what_follows_a_dot (stem a b : string) :
  CsvFromEs.csv_file (stem +:+ String "." a)
  = CsvFromEs.csv_file (stem +:+ String "." b).
Proof.
  destruct (split_head_before_dot stem) as [head Hhead].
  destruct (Hhead a) as [pieces_a Ha]. destruct (Hhead b) as [pieces_b Hb].
  unfold CsvFromEs.csv_file. by rewrite Ha, Hb.
Qed.

(** ** The converter run over a directory *)

Section converter_more.

Context {V : Type} (str : V -> string).

Import CsvFromEs.

Lemma convert_with_results (data : document) (first : hit) (rest : list hit) :
  hits data = first :: rest ->
  convert str data = (own_order_table str first data, Ok tt).
Proof.
  intros Hhits. unfold convert, own_order_table, table. rewrite Hhits.
  rewrite (index_nonneg (first :: rest) 0 first) by done.
  rewrite write_header_join, (write_lines_rows _ _ _ "").
  unfold row. simpl. by rewrite !append_assoc.
Qed.

Lemma convert_without_results (data : document) :
  hits data = [] -> convert str data = ("", Raise IndexError).
Proof. intros Hhits. unfold convert. by rewrite Hhits. Qed.



(** X20: When every result has the field names of the first one, the converter
    writes the table whose lines all follow the order of the header. *)
Theorem converter_follows_header_on_uniform_results (data : document)
    (first : hit) (rest : list hit) :
  hits data = first :: rest ->
  Forall (fun line => dom (source line) = dom (source first)) (hits data) ->
  convert str data = (header_order_table str first data, Ok tt).
Proof.
  intros Hhits Hsame. rewrite (convert_with_results _ _ _ Hhits). f_equal.
  unfold own_order_table, header_order_table, table. f_equal. f_equal.
  apply Forall_fmap_ext_1. eapply Forall_impl; [exact Hsame|].
  intros line Hline. simpl. by rewrite (sorted_keys_same_fields _ _ Hline).
Qed.

Lemma convert_all_json (file name : string) (data : document)
    (rest : list (string * document)) (files : gmap string string) :
  Py.endswith file ".json" = true ->
  csv_file file = Ok name ->
  convert_all str ((file, data) :: rest) files
  = match hits data with
    | [] => (<[name := ""]> files, Raise IndexError)
    | first :: _ =>
        convert_all str rest
          (<[name := own_order_table str first data]> files)
    end.
Proof.
  intros Hjson Hname. simpl. rewrite Hjson, Hname.
  destruct (hits data) as [|first others] eqn:Hhits.
  - by rewrite (convert_without_results _ Hhits).
  - by rewrite (convert_with_results _ _ _ Hhits).
Qed.

(** X21: The run never writes a file whose name ends in [.json]: whatever it
    does, every such file keeps its content. *)
Theorem convert_all_keeps_its_inputs (listing : list (string * document))
    (files : gmap string string) (name : string) :
  Py.endswith name ".json" = true ->
  (convert_all str listing files).1 !! name = files !! name.
Proof.
  intros Hname. revert files.
  induction listing as [|[file data] rest IH]; intros files; [done|].
  destruct (Py.endswith file ".json") eqn:Hjson;
    [|simpl; rewrite Hjson; apply IH].
  destruct (csv_file_Ok file) as (out & Hout & Hnot).
  rewrite (convert_all_json _ _ _ _ _ Hjson Hout).
  assert (out <> name) as Hne by (intros ->; by rewrite Hname in Hnot).
  destruct (hits data) as [|first others]; simpl.
  - by rewrite lookup_insert_ne.
  - by rewrite IH, lookup_insert_ne.
Qed.


Lemma convert_all_app (before after : list (string * document))
    (files : gmap string string) :
  (convert_all str before files).2 = Ok tt ->
  convert_all str (before ++ after) files
  = convert_all str after (convert_all str before files).1.
Proof.
  revert files.
  induction before as [|[file data] before IH]; intros files Hok; [done|].
  simpl in *. destruct (Py.endswith file ".json"); [|by apply IH].
  destruct (csv_file file) as [name|]; [|done].
  destruct (convert str data) as [content [[]|]]; [by apply IH | done].
Qed.

(** X23: The first document without a result ends the run: its output file is
    left empty and no later file of the listing is converted. *)
Theorem convert_all_stops_at_first_failure
    (before after : list (string * document)) (file name : string)
    (data : document) (files : gmap string string) :
  (convert_all str before files).2 = Ok tt ->
  Py.endswith file ".json" = true ->
  csv_file file = Ok name ->
  hits data = [] ->
  convert_all str (before ++ (file, data) :: after) files
  = (<[name := ""]> (convert_all str before files).1, Raise IndexError).
Proof.
  intros Hbefore Hjson Hname Hhits.
  rewrite (convert_all_app _ _ _ Hbefore).
  by rewrite (convert_all_json _ _ _ _ _ Hjson Hname), Hhits.
Qed.

End converter_more.

Lemma converter_follows_header_on_uniform_results_witness :
  CsvFromEs.convert id even_document
  = (CsvFromEs.header_order_table id
       (CsvFromEs.Hit (<["b" := "2"]> {[ "a" := "1" ]})) even_document,
     Ok tt).
Proof.
  apply (converter_follows_header_on_uniform_results id even_document
           (CsvFromEs.Hit (<["b" := "2"]> {[ "a" := "1" ]}))
           [CsvFromEs.Hit (<["a" := "3"]> {[ "b" := "4" ]})]).
  - reflexivity.
  - repeat constructor.
Defined.

Lemma convert_all_keeps_its_inputs_witness :
  (CsvFromEs.convert_all id [("a.json", even_document)] ∅).1 !! "a.json"
  = (∅ : gmap string string) !! "a.json".
Proof.
  apply (convert_all_keeps_its_inputs id [("a.json", even_document)] ∅ "a.json").
  reflexivity.
Defined.

Lemma convert_all_stops_at_first_failure_witness :
  CsvFromEs.convert_all id
    ([("a.json", even_document)]
     ++ ("b.json", CsvFromEs.Document []) :: [("c.json", even_document)]) ∅
  = (<["b.csv" := ""]>
       (CsvFromEs.convert_all id [("a.json", even_document)] ∅).1,
     Raise IndexError).
Proof.
  apply (convert_all_stops_at_first_failure id
           [("a.json", even_document)] [("c.json", even_document)]
           "b.json" "b.csv" (CsvFromEs.Document []) ∅);
    reflexivity.
Defined.


(** ** The script run as [__main__] *)

Section driver_facts.

Context (dumps : gmap string value -> string).

Lemma write_directory_app (root : string) (before after : list (string * crank))
    (result_file : string) :
  (write_directory dumps root before result_file).2 = Ok tt ->
  write_directory dumps root (before ++ after) result_file
  = write_directory dumps root after
      (write_directory dumps root before result_file).1.
Proof.
  revert result_file.
  induction before as [|[file data] before IH]; intros result_file Hok; [done|].
  simpl in *. destruct (Py.endswith file ".json"); [|by apply IH].
  destruct (extract_features data); [by apply IH | done].
Qed.

(** X24: A crank whose extraction raises ends the run: the result file then
    ends with the path of that crank and a space, and no later file of the
    directory is read. *)
Theorem failing_crank_ends_the_run (root file : string) (data : crank)
    (before after : list (string * crank)) (result_file : string) (e : exn) :
  (write_directory dumps root before result_file).2 = Ok tt ->
  Py.endswith file ".json" = true ->
  extract_features data = Raise e ->
  write_directory dumps root (before ++ (file, data) :: after) result_file
  = (((write_directory dumps root before result_file).1
      +:+ (root +:+ "/" +:+ file)) +:+ " ",
     Raise e).
Proof.
  intros Hbefore Hjson Hraise.
  rewrite (write_directory_app _ _ _ _ Hbefore). simpl.
  by rewrite Hjson, Hraise.
Qed.

End driver_facts.

Lemma failing_crank_ends_the_run_witness :
  write_directory (fun _ => "{}") "anwb_data/crankData"
    ([] ++ ("a.json", Crank [] "2018-11-26T07:36")
        :: [("b.json", Crank rising_trace "2018-11-26T07:37")]) ""
  = (((write_directory (fun _ => "{}") "anwb_data/crankData" [] "").1
      +:+ ("anwb_data/crankData" +:+ "/" +:+ "a.json")) +:+ " ",
     Raise ValueError).
Proof.
  apply (failing_crank_ends_the_run (fun _ => "{}") "anwb_data/crankData"
           "a.json" (Crank [] "2018-11-26T07:36") []
           [("b.json", Crank rising_trace "2018-11-26T07:37")] "" ValueError);
    reflexivity.
Defined.

(** ** The test on the name of the directory *)

Lemma split_single (sep : ascii) (s piece : string) :
  Py.split sep s = [piece] -> s = piece.
Proof.
  revert piece. induction s as [|c r IH]; intros piece; simpl.
  - by intros [= <-].
  - destruct (Ascii.eqb c sep).
    + intros [= _ Hr]. by destruct (split_nonempty sep r).
    + destruct (Py.split sep r) as [|p ps] eqn:Hr.
      * by destruct (split_nonempty sep r).
      * intros [= <- ->]. by rewrite (IH p).
Qed.

Lemma split_last (sep : ascii) (root : string) :
  exists last_component,
    last (Py.split sep root) = Some last_component /\
    Py.split sep last_component = [last_component] /\
    Py.endswith root last_component = true.
Proof.
  induction root as [|c r (last_r & Hlast & Hsplit & Hends)].
  - by exists "".
  - simpl Py.split. destruct (Ascii.eqb c sep) eqn:Hc.
    + exists last_r. split; [|split; [done|]].
      * destruct (Py.split sep r) as [|p ps]; [done|]. done.
      * change (String.eqb (String c r) last_r || Py.endswith r last_r = true).
        by rewrite Hends, orb_true_r.
    + destruct (Py.split sep r) as [|p [|q ps]] eqn:Hr; [done| |].
      * injection Hlast as <-. apply split_single in Hr as ->.
        exists (String c p). split; [done|]. split.
        -- simpl. by rewrite Hc, Hsplit.
        -- change (String.eqb (String c p) (String c p)
                   || Py.endswith p (String c p) = true).
           by rewrite String.eqb_refl.
      * exists last_r. split; [done|]. split; [done|].
        change (String.eqb (String c r) last_r || Py.endswith r last_r = true).
        by rewrite Hends, orb_true_r.
Qed.

Section driver_test.

Context (dumps : gmap string value -> string).

(** X26: The test on the name of the directory never raises: [root.split('/')]
    always holds a piece, so its last one can be read; that piece has no
    [/] and [root] ends with it.  A directory is read exactly when that
    piece is [crankData], and is skipped otherwise. *)
Theorem directory_test_never_raises (root : string) :
  exists last_component,
    Py.index (Py.split "/" root) (-1) = Ok last_component /\
    Py.split "/" last_component = [last_component] /\
    Py.endswith root last_component = true /\
    forall walk files result_file,
      main dumps ((root, files) :: walk) result_file
      = if String.eqb last_component "crankData" then
          match write_directory dumps root files result_file with
          | (result_file, Ok _) => main dumps walk result_file
          | (result_file, Raise e) => (result_file, Raise e)
          end
        else main dumps walk result_file.
Proof.
  destruct (split_last "/" root) as (last_component & Hlast & Hsplit & Hends).
  exists last_component.
  assert (Py.index (Py.split "/" root) (-1) = Ok last_component) as Hindex.
  { apply last_Some in Hlast as [pieces ->]. apply index_last. }
  split; [done|]. split; [done|]. split; [done|].
  intros walk files result_file. simpl. by rewrite Hindex.
Qed.

End driver_test.
